(** * LiteGen dashboard: a shallow embedding of the crawl form, the crawl list
    and the dashboard route, with the properties their specification states.

    Sources embedded here:
    - [src/frontend/src/components/crawl-form.tsx]  (module [CrawlForm])
    - [src/frontend/src/components/crawl-list.tsx]  (module [CrawlList])
    - [src/frontend/src/routes/_app/dashboard.tsx]  (module [Dashboard])

    Conventions.
    - A JavaScript string is a Rocq [string]; a character is read as the
      UTF-16 code unit of the same number (0..255).
    - A React component is a record of its [useState] cells.  An event handler
      is a function from the cells it closes over to the cells after the
      re-render, paired with the effects it performs on the outside world
      (requests, timers, callbacks).  React re-renders between two discrete
      events, so a handler always runs against the cells of the latest render.
    - An [await] splits a handler in two: the part before the request is
      issued and the part that runs once the request settles. *)

From Stdlib Require Import ZArith QArith Strings.String Strings.Ascii List Lia.
From Stdlib Require Import QArith.Qminmax Numbers.DecimalString.
From stdpp Require Import base option list strings gmap.

Open Scope string_scope.
Open Scope list_scope.

(** ** JavaScript primitives used by the components *)
Module JS.

(** Code units that [String.prototype.trim] removes (WhiteSpace and
    LineTerminator of ECMA-262) among the code units 0..255:
    TAB, LF, VT, FF, CR, SPACE, NBSP. *)
Definition isWhiteSpace (c : ascii) : bool :=
  match N_of_ascii c with
  | 9%N | 10%N | 11%N | 12%N | 13%N | 32%N | 160%N => true
  | _ => false
  end.

(** Remove the longest prefix, respectively suffix, of characters
    satisfying [p]. *)
Fixpoint stripStart (p : ascii → bool) (s : string) : string :=
  match s with
  | EmptyString => EmptyString
  | String c s' => if p c then stripStart p s' else s
  end.

Fixpoint stripEnd (p : ascii → bool) (s : string) : string :=
  match s with
  | EmptyString => EmptyString
  | String c s' =>
      match stripEnd p s' with
      | EmptyString => if p c then EmptyString else String c EmptyString
      | r => String c r
      end
  end.

(** [s.trim()] *)
Definition trim (s : string) : string :=
  stripEnd isWhiteSpace (stripStart isWhiteSpace s).

(** ToBoolean on a string: every string but the empty one is truthy. *)
Definition truthy (s : string) : bool :=
  match s with EmptyString => false | _ => true end.

(** ToBoolean on [string | undefined | null]. *)
Definition truthy_opt (o : option string) : bool :=
  match o with Some s => truthy s | None => false end.

(** [a || b] where [a : string | undefined] and [b : string]. *)
Definition or_else (a : option string) (b : string) : string :=
  if truthy_opt a then default b a else b.

(** [s || undefined] *)
Definition or_undefined (s : string) : option string :=
  if truthy s then Some s else None.

(** [String.prototype.toLowerCase] on the code units 0..255: the letters
    A-Z, and the Latin-1 capitals U+00C0..U+00DE except the sign U+00D7. *)
Definition lowerChar (c : ascii) : ascii :=
  let n := N_of_ascii c in
  if ((65 <=? n) && (n <=? 90))%N then ascii_of_N (n + 32)
  else if ((192 <=? n) && (n <=? 222) && negb (n =? 215))%N then ascii_of_N (n + 32)
  else c.

Fixpoint toLowerCase (s : string) : string :=
  match s with
  | EmptyString => EmptyString
  | String c s' => String (lowerChar c) (toLowerCase s')
  end.

(** [arr.includes(x)] on an array of strings. *)
Definition includes (arr : list string) (x : string) : bool :=
  bool_decide (x ∈ arr).

(** Template-literal rendering of an integer. *)
Definition numberToString (z : Z) : string :=
  NilZero.string_of_int (Z.to_int z).

End JS.

(** ** The URL constructor

    [new URL(input)] runs the basic URL parser of the URL Standard (WHATWG)
    with no base URL and throws a [TypeError] when the parser returns
    failure.  The state machine is followed state by state; of the resulting
    URL record only the scheme, host and port are kept, the states that
    cannot fail (path start, path, opaque path, query, fragment) are
    collapsed into success.  The host parser of the standard (IDNA
    processing, IPv4 numbers, IPv6 literals) belongs to the platform and is
    an interface here. *)
Module URL.
Import JS.

(** [host_parser input isOpaque]: the standard's host parser; [None] is
    failure. *)
Class Platform := { host_parser : string → bool → option string }.

Record URLRecord := mkURL {
  scheme : string;
  host : option string;
  port : option N
}.

Definition code (c : ascii) : N := N_of_ascii c.

Definition isC0ControlOrSpace (c : ascii) : bool := (code c <=? 32)%N.

Definition isTabOrNewline (c : ascii) : bool :=
  match code c with 9%N | 10%N | 13%N => true | _ => false end.

Definition isAsciiAlpha (c : ascii) : bool :=
  (((65 <=? code c) && (code c <=? 90)) || ((97 <=? code c) && (code c <=? 122)))%N.

Definition isAsciiDigit (c : ascii) : bool :=
  ((48 <=? code c) && (code c <=? 57))%N.

(** ASCII alphanumeric, U+002B (+), U+002D (-) or U+002E (.) *)
Definition isSchemeChar (c : ascii) : bool :=
  isAsciiAlpha c || isAsciiDigit c ||
  match code c with 43%N | 45%N | 46%N => true | _ => false end.

Definition asciiLowerChar (c : ascii) : ascii :=
  if ((65 <=? code c) && (code c <=? 90))%N then ascii_of_N (code c + 32) else c.

Definition isSlash (c : ascii) : bool :=
  match code c with 47%N | 92%N => true | _ => false end.

Fixpoint removeAll (p : ascii → bool) (s : string) : string :=
  match s with
  | EmptyString => EmptyString
  | String c s' => if p c then removeAll p s' else String c (removeAll p s')
  end.

Definition push (buffer : string) (c : ascii) : string :=
  buffer +:+ String c EmptyString.

Definition isSpecial (scheme : string) : bool :=
  bool_decide (scheme ∈ ["ftp"; "file"; "http"; "https"; "ws"; "wss"]).

Definition defaultPort (scheme : string) : option N :=
  if String.eqb scheme "ftp" then Some 21%N
  else if String.eqb scheme "http" || String.eqb scheme "ws" then Some 80%N
  else if String.eqb scheme "https" || String.eqb scheme "wss" then Some 443%N
  else None.

(** The code points that end the authority: EOF is the end of the string,
    then U+002F (/), U+003F (?), U+0023 (#), and U+005C (\) when the URL is
    special. *)
Definition endsAuthority (special : bool) (c : ascii) : bool :=
  match code c with
  | 47%N | 63%N | 35%N => true
  | 92%N => special
  | _ => false
  end.

Fixpoint decimal (acc : N) (digits : string) : N :=
  match digits with
  | EmptyString => acc
  | String c s' => decimal (acc * 10 + (code c - 48))%N s'
  end.

(** A Windows drive letter: an ASCII alpha followed by U+003A (:) or
    U+007C (|). *)
Definition isWindowsDriveLetter (s : string) : bool :=
  match s with
  | String a (String b EmptyString) =>
      isAsciiAlpha a && match code b with 58%N | 124%N => true | _ => false end
  | _ => false
  end.

Section Parser.
Context {platform : Platform}.

(** port state; the result is [url.port]. *)
Definition finishPort (sch buffer : string) : option (option N) :=
  if truthy buffer then
    let p := decimal 0 buffer in
    if (65535 <? p)%N then None
    else Some (if bool_decide (defaultPort sch = Some p) then None else Some p)
  else Some None.

Fixpoint portState (sch : string) (buffer : string) (s : string) : option (option N) :=
  match s with
  | EmptyString => finishPort sch buffer
  | String c rest =>
      if isAsciiDigit c then portState sch (push buffer c) rest
      else if endsAuthority (isSpecial sch) c then finishPort sch buffer
      else None
  end.

(** host state (and hostname state) *)
Definition finishHost (sch buffer : string) : option URLRecord :=
  if isSpecial sch && negb (truthy buffer) then None
  else h ← host_parser buffer (negb (isSpecial sch));
       Some {| scheme := sch; host := Some h; port := None |}.

Fixpoint hostState (sch : string) (insideBrackets : bool) (buffer : string)
    (s : string) : option URLRecord :=
  match s with
  | EmptyString => finishHost sch buffer
  | String c rest =>
      if Ascii.eqb c ":" && negb insideBrackets then
        if negb (truthy buffer) then None
        else h ← host_parser buffer (negb (isSpecial sch));
             p ← portState sch "" rest;
             Some {| scheme := sch; host := Some h; port := p |}
      else if endsAuthority (isSpecial sch) c then finishHost sch buffer
      else
        hostState sch
          (if Ascii.eqb c "[" then true
           else if Ascii.eqb c "]" then false else insideBrackets)
          (push buffer c) rest
  end.

(** authority state: the credentials are read and dropped; at the end of
    the authority the pointer is set back to the start of [buffer]. *)
Fixpoint authorityState (sch : string) (atSignSeen : bool) (buffer : string)
    (s : string) : option URLRecord :=
  match s with
  | EmptyString =>
      if atSignSeen && negb (truthy buffer) then None
      else hostState sch false "" buffer
  | String c rest =>
      if Ascii.eqb c "@" then authorityState sch true "" rest
      else if endsAuthority (isSpecial sch) c then
        if atSignSeen && negb (truthy buffer) then None
        else hostState sch false "" (buffer +:+ s)
      else authorityState sch atSignSeen (push buffer c) rest
  end.

(** file host state *)
Definition finishFileHost (buffer : string) : option URLRecord :=
  if isWindowsDriveLetter buffer || negb (truthy buffer)
  then Some {| scheme := "file"; host := Some ""; port := None |}
  else h ← host_parser buffer false;
       Some {| scheme := "file";
               host := Some (if String.eqb h "localhost" then "" else h);
               port := None |}.

Fixpoint fileHostState (buffer : string) (s : string) : option URLRecord :=
  match s with
  | EmptyString => finishFileHost buffer
  | String c rest =>
      if endsAuthority true c then finishFileHost buffer
      else fileHostState (push buffer c) rest
  end.

(** file state and file slash state, with a null base *)
Definition fileState (s : string) : option URLRecord :=
  match s with
  | String c (String c' rest) =>
      if isSlash c && isSlash c' then fileHostState "" rest
      else Some {| scheme := "file"; host := Some ""; port := None |}
  | _ => Some {| scheme := "file"; host := Some ""; port := None |}
  end.

(** What follows the U+003A (:) of the scheme state: file state; special
    authority slashes and special authority ignore slashes states, which
    together skip every leading slash and backslash; path or authority
    state; opaque path state. *)
Definition afterScheme (sch : string) (s : string) : option URLRecord :=
  if String.eqb sch "file" then fileState s
  else if isSpecial sch then authorityState sch false "" (stripStart isSlash s)
  else
    match s with
    | String "/" (String "/" rest) => authorityState sch false "" rest
    | _ => Some {| scheme := sch; host := None; port := None |}
    end.

(** scheme state: with no base URL the no scheme state is failure. *)
Fixpoint schemeState (buffer : string) (s : string) : option URLRecord :=
  match s with
  | EmptyString => None
  | String c rest =>
      if isSchemeChar c then schemeState (push buffer (asciiLowerChar c)) rest
      else if Ascii.eqb c ":" then afterScheme buffer rest
      else None
  end.

(** scheme start state *)
Definition schemeStartState (s : string) : option URLRecord :=
  match s with
  | String c rest =>
      if isAsciiAlpha c then schemeState (String (asciiLowerChar c) EmptyString) rest
      else None
  | EmptyString => None
  end.

(** The basic URL parser on [input]: leading and trailing C0 control or
    space are removed, then every ASCII tab or newline, then the state
    machine runs from the scheme start state. *)
Definition basicURLParser (input : string) : option URLRecord :=
  schemeStartState
    (removeAll isTabOrNewline
       (stripEnd isC0ControlOrSpace (stripStart isC0ControlOrSpace input))).

(** [try { new URL(input) } catch { ... }]: [None] when it throws. *)
Definition newURL (input : string) : option URLRecord := basicURLParser input.


(** The input parses as an absolute URL whose scheme is http or https. *)
Definition isAbsoluteHttpURL (input : string) : bool :=
  match newURL input with
  | Some u => String.eqb (scheme u) "http" || String.eqb (scheme u) "https"
  | None => false
  end.

End Parser.

(** The forbidden host code points and the forbidden domain code points of
    the standard. *)
Definition isForbiddenHostCodePoint (c : ascii) : bool :=
  match code c with
  | 0%N | 9%N | 10%N | 13%N | 32%N | 35%N | 47%N | 58%N | 60%N | 62%N | 63%N
  | 64%N | 91%N | 92%N | 93%N | 94%N | 124%N => true
  | _ => false
  end.

Definition isForbiddenDomainCodePoint (c : ascii) : bool :=
  isForbiddenHostCodePoint c || (code c <=? 31)%N || (code c =? 37)%N || (code c =? 127)%N.

Fixpoint allChars (p : ascii → bool) (s : string) : bool :=
  match s with
  | EmptyString => true
  | String c s' => p c && allChars p s'
  end.

Fixpoint mapChars (f : ascii → ascii) (s : string) : string :=
  match s with
  | EmptyString => EmptyString
  | String c s' => String (f c) (mapChars f s')
  end.

(** A host parser for registered names written with ASCII letters and
    dots only and starting with a letter (such as [example.com]): on these
    the standard's host parser lower-cases a domain and keeps an opaque
    host as it is.  Every other input (digits, hyphens, brackets, percent
    signs, other code points) is left to the platform and is reported as
    failure here, so this instance accepts no more than a browser does. *)
Definition isNameChar (c : ascii) : bool :=
  isAsciiAlpha c || (code c =? 46)%N.

Definition isRegisteredName (input : string) : bool :=
  match input with
  | String c _ => isAsciiAlpha c && allChars isNameChar input
  | EmptyString => false
  end.

Definition registeredNames : Platform :=
  {| host_parser input isOpaque :=
       if isRegisteredName input
       then Some (if isOpaque then input else mapChars asciiLowerChar input)
       else None |}.

End URL.

(** ** crawl-form.tsx *)
Module CrawlForm.
Import JS.

(** The request body, [PostCrawl] of the generated client: [url_filters]
    is optional there, which is why the component writes
    [formData.url_filters?.includes] and [prev.url_filters || []]. *)
Record PostCrawl := mkPostCrawl {
  website_url : string;
  gemini_api_key : string;
  url_filters : option (list string)
}.

(** The six [useState] cells of [CrawlForm]. *)
Record FormState := mkFormState {
  formData : PostCrawl;
  urlFilterInput : string;
  isLoading : bool;
  error : option string;
  success : bool;
  validationErrors : gmap string string
}.

Definition emptyForm : PostCrawl :=
  {| website_url := ""; gemini_api_key := ""; url_filters := Some [] |}.

(** The cells at mount. *)
Definition initialState : FormState :=
  {| formData := emptyForm; urlFilterInput := ""; isLoading := false;
     error := None; success := false; validationErrors := ∅ |}.

Definition setFormData (f : PostCrawl → PostCrawl) (st : FormState) : FormState :=
  {| formData := f (formData st); urlFilterInput := urlFilterInput st;
     isLoading := isLoading st; error := error st; success := success st;
     validationErrors := validationErrors st |}.

Definition setUrlFilterInput (v : string) (st : FormState) : FormState :=
  {| formData := formData st; urlFilterInput := v;
     isLoading := isLoading st; error := error st; success := success st;
     validationErrors := validationErrors st |}.

Definition setIsLoading (b : bool) (st : FormState) : FormState :=
  {| formData := formData st; urlFilterInput := urlFilterInput st;
     isLoading := b; error := error st; success := success st;
     validationErrors := validationErrors st |}.

Definition setError (e : option string) (st : FormState) : FormState :=
  {| formData := formData st; urlFilterInput := urlFilterInput st;
     isLoading := isLoading st; error := e; success := success st;
     validationErrors := validationErrors st |}.

Definition setSuccess (b : bool) (st : FormState) : FormState :=
  {| formData := formData st; urlFilterInput := urlFilterInput st;
     isLoading := isLoading st; error := error st; success := b;
     validationErrors := validationErrors st |}.

Definition setValidationErrors (f : gmap string string → gmap string string)
    (st : FormState) : FormState :=
  {| formData := formData st; urlFilterInput := urlFilterInput st;
     isLoading := isLoading st; error := error st; success := success st;
     validationErrors := f (validationErrors st) |}.

(** What a handler does to the world outside the component. *)
Inductive effect :=
| ApiCrawlCreateCrawl (body : PostCrawl)   (* the POST of handleSubmit *)
| SetTimeout (ms : Z)                      (* the delayed reset is scheduled *)
| OnCrawlCreated                           (* the prop callback *)
| FocusUrlFilterInput.                     (* urlFilterInputRef.current.focus() *)

(** [[...(prev.url_filters || []), x]] *)
Definition appendFilter (x : string) (prev : PostCrawl) : PostCrawl :=
  {| website_url := website_url prev; gemini_api_key := gemini_api_key prev;
     url_filters := Some (default [] (url_filters prev) ++ [x]) |}.

(** [prev.url_filters?.filter(f => f !== filterToRemove) || []] *)
Definition dropFilter (filterToRemove : string) (prev : PostCrawl) : PostCrawl :=
  {| website_url := website_url prev; gemini_api_key := gemini_api_key prev;
     url_filters :=
       Some (default [] (filter (λ f, f ≠ filterToRemove) <$> url_filters prev)) |}.

(** [handleAddUrlFilter]: the guard reads [urlFilterInput] and
    [formData.url_filters] of the current render; [undefined?.includes(..)]
    is [undefined], whose negation is [true]. *)
Definition handleAddUrlFilter (st : FormState) : FormState * list effect :=
  let t := trim (urlFilterInput st) in
  if truthy t && negb (default false ((λ l, includes l t) <$> url_filters (formData st)))
  then (setUrlFilterInput "" (setFormData (appendFilter t) st), [FocusUrlFilterInput])
  else (st, []).

(** [handleRemoveUrlFilter] *)
Definition handleRemoveUrlFilter (filterToRemove : string) (st : FormState)
    : FormState * list effect :=
  (setFormData (dropFilter filterToRemove) st, []).

Section Handlers.
Context {platform : URL.Platform}.

(** The [errors] object that [validateForm] builds from [formData]. *)
Definition validationErrorsOf (fd : PostCrawl) : gmap string string :=
  let errors : gmap string string := ∅ in
  let errors :=
    if negb (truthy (website_url fd))
    then <["website_url" := "Website URL is required"]> errors
    else
      match URL.newURL (website_url fd) with
      | Some _ => errors
      | None => <["website_url" := "Please enter a valid URL"]> errors
      end in
  if negb (truthy (gemini_api_key fd))
  then <["gemini_api_key" := "Gemini API key is required"]> errors
  else errors.

(** [validateForm]: stores the errors and returns
    [Object.keys(errors).length === 0]. *)
Definition validateForm (st : FormState) : FormState * bool :=
  let errors := validationErrorsOf (formData st) in
  (setValidationErrors (λ _, errors) st, Nat.eqb (size errors) 0).

(** [handleSubmit] up to the [await]: validation, the three setters and
    the request with [body: formData]. *)
Definition handleSubmit_request (st : FormState) : FormState * list effect :=
  let '(st1, valid) := validateForm st in
  if negb valid then (st1, [])
  else (setSuccess false (setError None (setIsLoading true st1)),
        [ApiCrawlCreateCrawl (formData st)]).

End Handlers.

(** [response.error] of the generated client, and how the awaited request
    settles: it resolves with or without [error], or it throws. *)
Record ApiError := mkApiError { detail : option string }.

Inductive settled :=
| Resolved (response_error : option ApiError)
| Rejected (message : option string).

(** [handleSubmit] after the [await]; [finally] runs on the three paths. *)
Definition handleSubmit_settled (r : settled) (st : FormState) : FormState * list effect :=
  match r with
  | Resolved (Some err) =>
      (setIsLoading false
         (setError (Some (or_else (detail err) "Failed to create crawl")) st), [])
  | Resolved None =>
      (setIsLoading false (setSuccess true st), [SetTimeout 2000])
  | Rejected message =>
      (setIsLoading false
         (setError (Some (or_else message "Failed to create crawl")) st), [])
  end.

(** The callback given to [setTimeout(.., 2000)]. *)
Definition resetAfterDelay (st : FormState) : FormState * list effect :=
  (setSuccess false (setUrlFilterInput "" (setFormData (λ _, emptyForm) st)),
   [OnCrawlCreated]).

(** The [useEffect] that blanks a validation message once its field is
    filled; both tests read the cells of one render. *)
Definition clearValidationErrors (st : FormState) : FormState :=
  let shown := validationErrors st in
  let st1 :=
    if truthy_opt (shown !! "website_url") && truthy (website_url (formData st))
    then setValidationErrors (<["website_url" := ""]>) st else st in
  if truthy_opt (shown !! "gemini_api_key") && truthy (gemini_api_key (formData st))
  then setValidationErrors (<["gemini_api_key" := ""]>) st1 else st1.

(** What can happen to a mounted form. *)
Inductive event :=
| ChangeWebsiteUrl (v : string)
| ChangeGeminiApiKey (v : string)
| ChangeUrlFilterInput (v : string)
| KeyDownEnter                 (* Enter in the filter input *)
| ClickAdd                     (* the + button *)
| ClickBadge (filter : string) (* a filter badge *)
| SubmitForm
| RequestSettled (r : settled)
| TimeoutFired.

(** [disabled={isLoading || success}] *)
Definition disabled (st : FormState) : bool := isLoading st || success st.

Definition withWebsiteUrl (v : string) (prev : PostCrawl) : PostCrawl :=
  {| website_url := v; gemini_api_key := gemini_api_key prev;
     url_filters := url_filters prev |}.

Definition withGeminiApiKey (v : string) (prev : PostCrawl) : PostCrawl :=
  {| website_url := website_url prev; gemini_api_key := v;
     url_filters := url_filters prev |}.

Section Component.
Context {platform : URL.Platform}.

(** One event against the rendered form.  A disabled control delivers no
    event; a badge exists only for a filter of the list; a request
    settles only while one is awaited ([isLoading]) and the timeout
    fires only while it is pending ([success]). *)
Definition dispatch (st : FormState) (e : event) : FormState * list effect :=
  match e with
  | ChangeWebsiteUrl v =>
      if disabled st then (st, []) else (setFormData (withWebsiteUrl v) st, [])
  | ChangeGeminiApiKey v =>
      if disabled st then (st, []) else (setFormData (withGeminiApiKey v) st, [])
  | ChangeUrlFilterInput v =>
      if disabled st then (st, []) else (setUrlFilterInput v st, [])
  | KeyDownEnter =>
      if disabled st then (st, []) else handleAddUrlFilter st
  | ClickAdd =>
      if negb (truthy (trim (urlFilterInput st))) || disabled st then (st, [])
      else handleAddUrlFilter st
  | ClickBadge f =>
      if default false ((λ l, includes l f) <$> url_filters (formData st))
         && negb (isLoading st) && negb (success st)
      then handleRemoveUrlFilter f st else (st, [])
  | SubmitForm =>
      if disabled st then (st, []) else handleSubmit_request st
  | RequestSettled r =>
      if isLoading st then handleSubmit_settled r st else (st, [])
  | TimeoutFired =>
      if success st then resetAfterDelay st else (st, [])
  end.

(** An event, then the effect hook of the render it causes. *)
Definition step (st : FormState) (e : event) : FormState * list effect :=
  let '(st', out) := dispatch st e in (clearValidationErrors st', out).

(** A session: the events in order, with everything sent outside. *)
Fixpoint run (st : FormState) (es : list event) : FormState * list effect :=
  match es with
  | [] => (st, [])
  | e :: es' =>
      let '(st1, out1) := step st e in
      let '(st2, out2) := run st1 es' in
      (st2, out1 ++ out2)
  end.

(** [handleSubmit] from the submit to the end of [finally], for a request
    that settles as [r]. *)
Definition handleSubmit (r : settled) (st : FormState) : FormState * list effect :=
  let '(st1, valid) := validateForm st in
  if negb valid then (st1, [])
  else
    let st2 := setSuccess false (setError None (setIsLoading true st1)) in
    let '(st3, out) := handleSubmit_settled r st2 in
    (st3, ApiCrawlCreateCrawl (formData st) :: out).

End Component.

(** *** Vocabulary of the statements about the form *)

(** A filter entry that is not empty and has no white space at either
    end. *)
Definition cleanFilter (f : string) : Prop :=
  f ≠ EmptyString
  ∧ (∀ c r, f = String c r → isWhiteSpace c = false)
  ∧ (∀ pre c, f = pre +:+ String c EmptyString → isWhiteSpace c = false).

(** The filter list of a form: an array of clean entries, none twice. *)
Definition filtersClean (fd : PostCrawl) : Prop :=
  ∃ l, url_filters fd = Some l ∧ NoDup l ∧ Forall cleanFilter l.

(** The bodies of the creation requests among the effects. *)
Definition requestBodies (out : list effect) : list PostCrawl :=
  omap (λ e, match e with ApiCrawlCreateCrawl b => Some b | _ => None end) out.

(** The cells when the request leaves: no validation error, loading, no
    error, no success. *)
Definition awaiting (st : FormState) : FormState :=
  setSuccess false
    (setError None (setIsLoading true (setValidationErrors (λ _, ∅) st))).

(** The request settled without creating a crawl. *)
Definition isFailure (r : settled) : bool :=
  match r with
  | Resolved (Some _) | Rejected _ => true
  | Resolved None => false
  end.

(** Two events that are the same but for the API key typed, where a key
    is typed in both or in neither. *)
Definition sameButKey (e1 e2 : event) : Prop :=
  match e1, e2 with
  | ChangeGeminiApiKey k1, ChangeGeminiApiKey k2 => truthy k1 = truthy k2
  | _, _ => e1 = e2
  end.

(** Blanking the key: only whether one is present is kept. *)
Definition redactKey (k : string) : string :=
  if truthy k then "*" else "".

Definition redactBody (fd : PostCrawl) : PostCrawl :=
  {| website_url := website_url fd; gemini_api_key := redactKey (gemini_api_key fd);
     url_filters := url_filters fd |}.

Definition redactState (st : FormState) : FormState :=
  setFormData redactBody st.

Definition redactEvent (e : event) : event :=
  match e with
  | ChangeGeminiApiKey k => ChangeGeminiApiKey (redactKey k)
  | other => other
  end.

Definition redactEffect (e : effect) : effect :=
  match e with
  | ApiCrawlCreateCrawl body => ApiCrawlCreateCrawl (redactBody body)
  | other => other
  end.

End CrawlForm.

(** ** crawl-list.tsx *)
Module CrawlList.
Import JS.

(** [Crawl] of the generated client, with the fields the list reads.
    [created_at] stands for [new Date(crawl.created_at).getTime()], the
    creation time in milliseconds. *)
Record Crawl := mkCrawl {
  id : Z;
  status : string;
  website_url : string;
  pages : Z;
  created_at : Z;
  url_filters : option (list string);
  llms : option string;
  llms_full : option string
}.

Inductive icon := CheckCircle2 | Loader2 | AlertCircle | Clock.

Record StatusConfig := mkStatusConfig {
  color : string;
  statusIcon : icon;
  label : string
}.

Definition getStatusConfig (status : string) : StatusConfig :=
  let s := toLowerCase status in
  if String.eqb s "completed" then
    {| color := "bg-green-500/10 text-green-700 dark:text-green-400 border-green-500/20";
       statusIcon := CheckCircle2; label := "Completed" |}
  else if String.eqb s "in_progress" || String.eqb s "processing" then
    {| color := "bg-blue-500/10 text-blue-700 dark:text-blue-400 border-blue-500/20";
       statusIcon := Loader2; label := "In Progress" |}
  else if String.eqb s "failed" then
    {| color := "bg-red-500/10 text-red-700 dark:text-red-400 border-red-500/20";
       statusIcon := AlertCircle; label := "Failed" |}
  else if String.eqb s "pending" then
    {| color := "bg-yellow-500/10 text-yellow-700 dark:text-yellow-400 border-yellow-500/20";
       statusIcon := Clock; label := "Pending" |}
  else
    {| color := "bg-gray-500/10 text-gray-700 dark:text-gray-400 border-gray-500/20";
       statusIcon := Clock; label := status |}.

(** The estimate both [getEstimatedTime] and [getProgressPercentage] start
    with: [totalSeconds], from the page count. *)
Definition totalSeconds (pages : Z) : Z :=
  let totalSeconds := 60%Z in
  if (10 <=? pages)%Z then
    let groups := (pages / 10 - 1)%Z in
    (totalSeconds + groups * 90)%Z
  else totalSeconds.

(** [Math.floor((currentTime - createdTime) / 1000)] *)
Definition elapsedSeconds (createdTime currentTime : Z) : Z :=
  ((currentTime - createdTime) / 1000)%Z.

Definition getEstimatedTime (pages createdTime currentTime : Z) : string :=
  if (pages =? 0)%Z then "N/A"
  else
    let remainingSeconds :=
      Z.max 0 (totalSeconds pages - elapsedSeconds createdTime currentTime) in
    if (remainingSeconds =? 0)%Z then "Almost done"
    else
      let minutes := (remainingSeconds / 60)%Z in
      let seconds := (remainingSeconds mod 60)%Z in
      if (minutes =? 0)%Z then numberToString seconds +:+ "s remaining"
      else if (seconds =? 0)%Z then numberToString minutes +:+ "m remaining"
      else numberToString minutes +:+ "m " +:+ numberToString seconds +:+ "s remaining".

(** The quotient is a JavaScript number; it is kept exact as a rational. *)
Definition getProgressPercentage (pages createdTime currentTime : Z) : Q :=
  if (pages =? 0)%Z then 0%Q
  else
    Qmin 100
      (Qmax 0
         ((inject_Z (elapsedSeconds createdTime currentTime)
           / inject_Z (totalSeconds pages)) * 100))%Q.

(** Per card: [isInProgress], [isCompleted], and the Downloads block, which
    is rendered under [isCompleted &&] with each button
    [disabled={!crawl.llms}], respectively [disabled={!crawl.llms_full}]. *)
Definition isInProgress (crawl : Crawl) : bool :=
  String.eqb (toLowerCase (status crawl)) "in_progress".

Definition isCompleted (crawl : Crawl) : bool :=
  String.eqb (toLowerCase (status crawl)) "completed".

Definition offersLlms (crawl : Crawl) : bool :=
  isCompleted crawl && truthy_opt (llms crawl).

Definition offersLlmsFull (crawl : Crawl) : bool :=
  isCompleted crawl && truthy_opt (llms_full crawl).

(** The search box.  [pendingSearch] is the timeout of the debounce effect
    with the [searchTerm] its closure holds. *)
Record ListState := mkListState {
  searchTerm : string;
  refreshing : bool;
  pendingSearch : option string
}.

Inductive callback :=
| OnSearch (searchTerm : option string)
| OnRefresh (searchTerm : option string).

(** At mount the effect runs once with the empty search term. *)
Definition mounted : ListState :=
  {| searchTerm := ""; refreshing := false; pendingSearch := Some "" |}.

Inductive event :=
| ChangeSearch (v : string)   (* typing, and "Clear search" with [v = ""] *)
| DebounceElapsed             (* 400 ms passed with the timeout still set *)
| ClickRefresh
| RefreshShown.               (* the 500 ms timeout of handleRefresh *)

(** [setSearchTerm(v)]: the same value causes no render; another value
    re-runs the effect, whose cleanup clears the timeout before a new one
    is set. *)
Definition dispatch (st : ListState) (e : event) : ListState * list callback :=
  match e with
  | ChangeSearch v =>
      if String.eqb v (searchTerm st) then (st, [])
      else ({| searchTerm := v; refreshing := refreshing st; pendingSearch := Some v |}, [])
  | DebounceElapsed =>
      match pendingSearch st with
      | Some captured =>
          ({| searchTerm := searchTerm st; refreshing := refreshing st;
              pendingSearch := None |},
           [OnSearch (or_undefined (trim captured))])
      | None => (st, [])
      end
  | ClickRefresh =>
      if refreshing st then (st, [])
      else ({| searchTerm := searchTerm st; refreshing := true;
               pendingSearch := pendingSearch st |},
            [OnRefresh (or_undefined (trim (searchTerm st)))])
  | RefreshShown =>
      ({| searchTerm := searchTerm st; refreshing := false;
          pendingSearch := pendingSearch st |}, [])
  end.

Fixpoint run (st : ListState) (es : list event) : ListState * list callback :=
  match es with
  | [] => (st, [])
  | e :: es' =>
      let '(st1, out1) := dispatch st e in
      let '(st2, out2) := run st1 es' in
      (st2, out1 ++ out2)
  end.

End CrawlList.

(** ** routes/_app/dashboard.tsx *)
Module Dashboard.
Import JS.

Record GetCrawl := mkGetCrawl { count : Z; crawls : list CrawlList.Crawl }.

(** The query object of [apiCrawlListCrawls]. *)
Record ListQuery := mkListQuery { term : string }.

Inductive request :=
| ApiCrawlListCrawls (query : option ListQuery).

Record DashState := mkDashState {
  listing : GetCrawl;
  isLoading : bool;
  showForm : bool
}.

(** [query: searchTerm ? { term: searchTerm } : undefined] *)
Definition queryOf (searchTerm : option string) : option ListQuery :=
  match searchTerm with
  | Some s => if truthy s then Some {| term := s |} else None
  | None => None
  end.

(** [loadCrawls] up to the [await]. *)
Definition loadCrawls_request (searchTerm : option string) (st : DashState)
    : DashState * request :=
  ({| listing := listing st; isLoading := true; showForm := showForm st |},
   ApiCrawlListCrawls (queryOf searchTerm)).

(** [loadCrawls] after the [await]: [response.data] when there is one;
    a thrown error is only written to the console. *)
Inductive settled :=
| Resolved (data : option GetCrawl)
| Rejected.

Definition loadCrawls_settled (r : settled) (st : DashState) : DashState :=
  match r with
  | Resolved (Some data) =>
      {| listing := data; isLoading := false; showForm := showForm st |}
  | Resolved None | Rejected =>
      {| listing := listing st; isLoading := false; showForm := showForm st |}
  end.

(** [onSearch] and [onRefresh] of the list are both [loadCrawls]. *)
Definition onCallback (c : CrawlList.callback) (st : DashState) : DashState * request :=
  match c with
  | CrawlList.OnSearch t | CrawlList.OnRefresh t => loadCrawls_request t st
  end.

(** [handleCrawlCreated]: the listing is reloaded and the form unmounted;
    nothing of the form's cells reaches the route. *)
Definition handleCrawlCreated (st : DashState) : DashState * request :=
  let '(st1, req) := loadCrawls_request None st in
  ({| listing := listing st1; isLoading := isLoading st1; showForm := false |}, req).

End Dashboard.

(** ** The job controller and the listing endpoint

    The crawl pipeline and its HTTP endpoints are not part of the client
    sources above; what the properties below need of them is taken from the
    specification (sections 3, 4.1, 4.5, 5 and 6). *)
Module JobController.

(** Modelled from the spec: the four states of a job (section 4.1); the
    controller's source is missing. *)
Inductive JobStatus := pending | in_progress | completed | failed.

(** Modelled from the spec: the terminal reasons of section 7; the
    controller's source is missing. *)
Inductive FailureReason := GenerationFailed | Cancelled | Timeout.

(** Modelled from the spec: the CrawlJob of section 3; the controller's
    source is missing. *)
Record CrawlJob := mkCrawlJob {
  job_id : Z;
  seed_url : string;
  filters : list string;
  status : JobStatus;
  page_count : Z;
  created : Z;
  summary_doc : option string;
  full_doc : option string;
  failure_reason : option FailureReason
}.

(** Modelled from the spec: what moves a job (sections 4.1, 4.5, 5 and 7);
    the controller's source is missing.  A job starts, hands a page from
    the Extractor to the Generator, finishes all batches with the frontier
    exhausted, gives up on a batch after its retries, exceeds its
    wall-clock budget, or is cancelled. *)
Inductive command :=
| Start
| PageHandedOff
| AllBatchesDone (summary full : string)
| GenerationGaveUp
| BudgetExceeded
| CancelJob.

(** Modelled from the spec: a job as [StartJob] creates it, pending, with
    no page processed and no output; the controller's source is missing. *)
Definition created_job (id : Z) (seed : string) (fs : list string) (now : Z) : CrawlJob :=
  {| job_id := id; seed_url := seed; filters := fs; status := pending;
     page_count := 0; created := now; summary_doc := None; full_doc := None;
     failure_reason := None |}.

Definition fail_with (r : FailureReason) (j : CrawlJob) : CrawlJob :=
  {| job_id := job_id j; seed_url := seed_url j; filters := filters j;
     status := failed; page_count := page_count j; created := created j;
     summary_doc := summary_doc j; full_doc := full_doc j;
     failure_reason := Some r |}.

(** Modelled from the spec: the state machine of section 4.1, the
    controller's source is missing.  pending -> in_progress on start;
    in_progress -> completed with both document handles recorded together
    (section 4.5); in_progress -> failed with the reason recorded;
    [CancelJob] takes a running or pending job to failed with reason
    Cancelled; no transition leaves completed or failed. *)
Definition transition (j : CrawlJob) (c : command) : CrawlJob :=
  match status j, c with
  | pending, Start =>
      {| job_id := job_id j; seed_url := seed_url j; filters := filters j;
         status := in_progress; page_count := page_count j; created := created j;
         summary_doc := summary_doc j; full_doc := full_doc j;
         failure_reason := failure_reason j |}
  | in_progress, PageHandedOff =>
      {| job_id := job_id j; seed_url := seed_url j; filters := filters j;
         status := in_progress; page_count := (page_count j + 1)%Z;
         created := created j;
         summary_doc := summary_doc j; full_doc := full_doc j;
         failure_reason := failure_reason j |}
  | in_progress, AllBatchesDone summary full =>
      {| job_id := job_id j; seed_url := seed_url j; filters := filters j;
         status := completed; page_count := page_count j; created := created j;
         summary_doc := Some summary; full_doc := Some full;
         failure_reason := failure_reason j |}
  | in_progress, GenerationGaveUp => fail_with GenerationFailed j
  | in_progress, BudgetExceeded => fail_with Timeout j
  | pending, CancelJob | in_progress, CancelJob => fail_with Cancelled j
  | _, _ => j
  end.

(** Modelled from the spec: the life of a job is a sequence of such
    commands; the controller's source is missing. *)
Definition run_job (j : CrawlJob) (cs : list command) : CrawlJob :=
  fold_left transition cs j.

Definition isTerminal (s : JobStatus) : bool :=
  match s with completed | failed => true | _ => false end.

(** Modelled from the spec: the status as the client receives it; the
    serializer's source is missing. *)
Definition statusName (s : JobStatus) : string :=
  match s with
  | pending => "pending"
  | in_progress => "in_progress"
  | completed => "completed"
  | failed => "failed"
  end.

(** Modelled from the spec: [GetJobStatus]/[GetCrawl] (sections 4.1 and
    6), the job metadata read by the listing layer; the endpoint's source is
    missing. *)
Definition getCrawl (j : CrawlJob) : CrawlList.Crawl :=
  {| CrawlList.id := job_id j;
     CrawlList.status := statusName (status j);
     CrawlList.website_url := seed_url j;
     CrawlList.pages := page_count j;
     CrawlList.created_at := created j;
     CrawlList.url_filters := Some (filters j);
     CrawlList.llms := summary_doc j;
     CrawlList.llms_full := full_doc j |}.

(** [needle] occurs in [s]. *)
Fixpoint isSubstring (needle s : string) : bool :=
  String.prefix needle s ||
  match s with
  | EmptyString => false
  | String _ s' => isSubstring needle s'
  end.

(** Modelled from the spec: [ListCrawls(searchTerm?) -> {count, jobs[]}]
    of section 6, a read-only query in which [searchTerm] filters by
    substring match against the seed website URL; the endpoint's source is
    missing. *)
Definition listCrawls (query : option Dashboard.ListQuery) (jobs : list CrawlJob)
    : Dashboard.GetCrawl :=
  let selected :=
    match query with
    | Some q => filter (λ j, isSubstring (Dashboard.term q) (seed_url j) = true) jobs
    | None => jobs
    end in
  {| Dashboard.count := Z.of_nat (length selected);
     Dashboard.crawls := getCrawl <$> selected |}.

(** Modelled from the spec: the default batch boundary of sections 3 and
    4.5, N = 10 pages; the Generator's source is missing. *)
Definition default_batch_size : Z := 10.

(** Either both documents and the status completed, or neither document and
    another status. *)
Definition documentsAtomic (j : CrawlJob) : Prop :=
  (status j = completed ∧ is_Some (summary_doc j) ∧ is_Some (full_doc j))
  ∨ (status j ≠ completed ∧ summary_doc j = None ∧ full_doc j = None).

End JobController.

(** ** crawl-list.tsx: what a card renders besides the badge *)
Module CrawlCard.
Import JS.

(** [handleDownload]: [window.open(url, '_blank')]. *)
Inductive windowEffect :=
| WindowOpen (url target : string).

Definition handleDownload (url : string) : list windowEffect :=
  [WindowOpen url "_blank"].

(** A click on the [llms.txt] button.  The button is rendered under
    [isCompleted &&], a disabled button ([disabled={!crawl.llms}]) delivers
    no click, and the handler is [crawl.llms && handleDownload(crawl.llms)]. *)
Definition clickLlms (crawl : CrawlList.Crawl) : list windowEffect :=
  if CrawlList.isCompleted crawl && truthy_opt (CrawlList.llms crawl) then
    match CrawlList.llms crawl with
    | Some url => if truthy url then handleDownload url else []
    | None => []
    end
  else [].

(** The same for the [llms-full.txt] button. *)
Definition clickLlmsFull (crawl : CrawlList.Crawl) : list windowEffect :=
  if CrawlList.isCompleted crawl && truthy_opt (CrawlList.llms_full crawl) then
    match CrawlList.llms_full crawl with
    | Some url => if truthy url then handleDownload url else []
    | None => []
    end
  else [].

(** The badges of the Filters block: rendered when
    [crawl.url_filters && crawl.url_filters.length > 0], the first three
    filters ([slice(0, 3)]) and, when there are more than three, one more
    badge [+{length - 3} more]. *)
Definition filterBadges (crawl : CrawlList.Crawl) : list string :=
  match CrawlList.url_filters crawl with
  | Some fs =>
      if (0 <? length fs)%nat then
        take 3 fs ++
        (if (3 <? length fs)%nat
         then ["+" +:+ numberToString (Z.of_nat (length fs) - 3) +:+ " more"]
         else [])
      else []
  | None => []
  end.

(** The Progress block (estimate and bar) is rendered under
    [isInProgress &&]. *)
Definition progressBlock (crawl : CrawlList.Crawl) (currentTime : Z) : option (string * Q) :=
  if CrawlList.isInProgress crawl then
    Some (CrawlList.getEstimatedTime (CrawlList.pages crawl) (CrawlList.created_at crawl)
            currentTime,
          CrawlList.getProgressPercentage (CrawlList.pages crawl)
            (CrawlList.created_at crawl) currentTime)
  else None.

End CrawlCard.

(** ** components/navbar.tsx *)
Module Navbar.

Record navItem := mkNavItem { name : string; href : string }.

Definition navigation : list navItem :=
  [ {| name := "Dashboard"; href := "/dashboard" |};
    {| name := "About"; href := "/about" |} ].

(** [isActive]: [location.pathname === href] *)
Definition isActive (pathname href : string) : bool := String.eqb pathname href.

(** The items rendered with the active class. *)
Definition activeItems (pathname : string) : list navItem :=
  filter (λ item, isActive pathname (href item) = true) navigation.

End Navbar.

(** ** Vocabulary of the statements about sessions *)
Module Session.

Definition isRequestSettled (e : CrawlForm.event) : bool :=
  match e with CrawlForm.RequestSettled _ => true | _ => false end.

(** The number of times a creation request settled during a session. *)
Definition countSettled (es : list CrawlForm.event) : nat :=
  length (List.filter isRequestSettled es).

Definition isRefreshShown (e : CrawlList.event) : bool :=
  match e with CrawlList.RefreshShown => true | _ => false end.

(** The 500 ms timeouts of [handleRefresh] that fired during a session. *)
Definition countRefreshShown (es : list CrawlList.event) : nat :=
  length (List.filter isRefreshShown es).

Definition isOnRefresh (c : CrawlList.callback) : bool :=
  match c with CrawlList.OnRefresh _ => true | _ => false end.

Definition countOnRefresh (out : list CrawlList.callback) : nat :=
  length (List.filter isOnRefresh out).

(** [s] contains the character [c]. *)
Fixpoint contains (c : ascii) (s : string) : bool :=
  match s with
  | EmptyString => false
  | String a s' => Ascii.eqb a c || contains c s'
  end.


(** The body is one that [validateForm] accepts. *)
Definition validBody {platform : URL.Platform} (body : CrawlForm.PostCrawl) : Prop :=
  is_Some (URL.newURL (CrawlForm.website_url body))
  ∧ CrawlForm.gemini_api_key body ≠ "".

(** The message stored for [website_url] is blank, or it is the message of
    the empty field and the field is empty. *)
Definition urlMessageSettled (st : CrawlForm.FormState) : Prop :=
  ∀ m, CrawlForm.validationErrors st !! "website_url" = Some m →
       m = "" ∨ (m = "Website URL is required"
                 ∧ CrawlForm.website_url (CrawlForm.formData st) = "").

(** No request is awaited while the success banner shows, and while a
    request is awaited no error of any kind is stored. *)
Definition cellsCoherent (st : CrawlForm.FormState) : Prop :=
  CrawlForm.isLoading st && CrawlForm.success st = false
  ∧ (CrawlForm.isLoading st = true →
     CrawlForm.error st = None ∧ CrawlForm.validationErrors st = ∅).

(** The debounce timeout, when set, holds the search term of the box. *)
Definition timerCurrent (st : CrawlList.ListState) : Prop :=
  CrawlList.pendingSearch st = None
  ∨ CrawlList.pendingSearch st = Some (CrawlList.searchTerm st).

End Session.

(** * Properties *)

(** ** Strings *)
Section Strip.
Variable p : ascii → bool.

Lemma stripStart_head c s :
  JS.stripStart p (String c s) = String c s ∨ p c = true.
Proof. simpl. destruct (p c); auto. Qed.

Lemma stripStart_result s c r :
  JS.stripStart p s = String c r → p c = false.
Proof.
  induction s as [|a s IH]; simpl; [discriminate|].
  destruct (p a) eqn:Ha; [exact IH|].
  intros [= -> _]. exact Ha.
Qed.

Lemma stripStart_fixed c s : p c = false → JS.stripStart p (String c s) = String c s.
Proof. intros Hc. simpl. by rewrite Hc. Qed.

Lemma stripEnd_idem s : JS.stripEnd p (JS.stripEnd p s) = JS.stripEnd p s.
Proof.
  induction s as [|a s IH]; simpl; [done|].
  destruct (JS.stripEnd p s) as [|b r] eqn:E.
  - destruct (p a) eqn:Ha; simpl; [done|]. by rewrite Ha.
  - simpl in *. by rewrite IH.
Qed.

(** [stripEnd] keeps the first character of a string that it does not
    erase. *)
Lemma stripEnd_keeps_head c s :
  p c = false → ∃ r, JS.stripEnd p (String c s) = String c r.
Proof.
  intros Hc. simpl. destruct (JS.stripEnd p s); [rewrite Hc|]; eauto.
Qed.

Lemma stripEnd_last s pre c :
  JS.stripEnd p s = pre +:+ String c EmptyString → p c = false.
Proof.
  revert pre. induction s as [|a s IH]; intros pre; simpl.
  - destruct pre; discriminate.
  - destruct (JS.stripEnd p s) as [|b r] eqn:E.
    + destruct (p a) eqn:Ha; [destruct pre; discriminate|].
      destruct pre as [|x pre]; simpl; [by intros [= <-]|].
      intros [= _ Hp]. destruct pre; discriminate.
    + destruct pre as [|x pre]; simpl; [discriminate|].
      intros [= _ Hp]. by apply (IH pre).
Qed.

Lemma stripEnd_empty s : JS.stripEnd p s = EmptyString ↔ URL.allChars p s = true.
Proof.
  induction s as [|a s IH]; simpl; [done|].
  destruct (JS.stripEnd p s) as [|b r] eqn:E.
  - destruct (p a); simpl; [|split; discriminate].
    split; [intros _; by apply IH|done].
  - split; [discriminate|]. intros [_ Hs]%andb_prop. by apply IH in Hs.
Qed.

Lemma stripStart_all s : URL.allChars p s = true → JS.stripStart p s = EmptyString.
Proof.
  induction s as [|a s IH]; simpl; [done|].
  intros [-> Hs]%andb_prop. by apply IH.
Qed.

Lemma allChars_stripStart s :
  URL.allChars p (JS.stripStart p s) = URL.allChars p s.
Proof.
  induction s as [|a s IH]; simpl; [done|].
  destruct (p a) eqn:Ha; simpl; [done|]. by rewrite Ha.
Qed.
End Strip.

Lemma trim_idem s : JS.trim (JS.trim s) = JS.trim s.
Proof.
  unfold JS.trim.
  destruct (JS.stripStart JS.isWhiteSpace s) as [|c r] eqn:E; [done|].
  pose proof (stripStart_result _ _ _ _ E) as Hc.
  destruct (stripEnd_keeps_head JS.isWhiteSpace c r Hc) as [r' Hr].
  rewrite Hr, stripStart_fixed by done.
  rewrite <- Hr. apply stripEnd_idem.
Qed.

(** A trimmed string starts and ends with a character that is not white
    space, when it has one. *)
Lemma trim_first s c r : JS.trim s = String c r → JS.isWhiteSpace c = false.
Proof.
  unfold JS.trim. intros Ht.
  destruct (JS.stripStart JS.isWhiteSpace s) as [|a q] eqn:E; [discriminate|].
  pose proof (stripStart_result _ _ _ _ E) as Ha.
  destruct (stripEnd_keeps_head JS.isWhiteSpace a q Ha) as [r' Hr].
  rewrite Hr in Ht. by injection Ht as <- _.
Qed.

Lemma trim_last s pre c :
  JS.trim s = pre +:+ String c EmptyString → JS.isWhiteSpace c = false.
Proof. unfold JS.trim. apply stripEnd_last. Qed.

(** The strings that trim to nothing are the strings of white space. *)
Lemma trim_empty s : JS.trim s = EmptyString ↔ URL.allChars JS.isWhiteSpace s = true.
Proof.
  unfold JS.trim. rewrite stripEnd_empty. by rewrite allChars_stripStart.
Qed.

Lemma truthy_true s : JS.truthy s = true ↔ s ≠ EmptyString.
Proof. destruct s; simpl; split; congruence. Qed.

Lemma truthy_false s : JS.truthy s = false ↔ s = EmptyString.
Proof. destruct s; simpl; split; congruence. Qed.

(** ** The filter list of the form *)

Lemma cleanFilter_trim s : JS.trim s ≠ EmptyString → CrawlForm.cleanFilter (JS.trim s).
Proof.
  intros Hne. split; [done|]. split.
  - intros c r. apply trim_first.
  - intros pre c. apply trim_last.
Qed.

Lemma filter_ne_app_fresh (L : list string) (t : string) :
  t ∉ L → filter (λ f, f ≠ t) (L ++ [t]) = L.
Proof.
  intros Hfresh. rewrite filter_app.
  rewrite (filter_cons_False (λ f, f ≠ t) t []) by (intros Hn; by apply Hn).
  rewrite filter_nil, app_nil_r.
  induction L as [|x L IH]; [done|].
  apply not_elem_of_cons in Hfresh as [Hx HL].
  rewrite filter_cons_True by done. by rewrite IH.
Qed.

Lemma includes_true (l : list string) (x : string) : JS.includes l x = true ↔ x ∈ l.
Proof. unfold JS.includes. apply bool_decide_eq_true. Qed.

Lemma includes_false (l : list string) (x : string) : JS.includes l x = false ↔ x ∉ l.
Proof. unfold JS.includes. apply bool_decide_eq_false. Qed.

Lemma dropFilter_appendFilter (fd : CrawlForm.PostCrawl) (L : list string) (t : string) :
  CrawlForm.url_filters fd = Some L → t ∉ L →
  CrawlForm.dropFilter t (CrawlForm.appendFilter t fd) = fd.
Proof.
  intros HL Hfresh. destruct fd as [w k fs]. simpl in HL. subst fs.
  unfold CrawlForm.dropFilter, CrawlForm.appendFilter. cbn [CrawlForm.url_filters
    CrawlForm.website_url CrawlForm.gemini_api_key default fmap option_fmap option_map].
  by rewrite filter_ne_app_fresh.
Qed.

(** What [handleAddUrlFilter] does on a form whose list is [L]. *)
Lemma handleAddUrlFilter_fresh (st : CrawlForm.FormState) (L : list string) :
  CrawlForm.url_filters (CrawlForm.formData st) = Some L →
  JS.trim (CrawlForm.urlFilterInput st) ≠ EmptyString →
  JS.trim (CrawlForm.urlFilterInput st) ∉ L →
  CrawlForm.handleAddUrlFilter st =
    (CrawlForm.setUrlFilterInput ""
       (CrawlForm.setFormData
          (CrawlForm.appendFilter (JS.trim (CrawlForm.urlFilterInput st))) st),
     [CrawlForm.FocusUrlFilterInput]).
Proof.
  intros HL Hne Hfresh. unfold CrawlForm.handleAddUrlFilter.
  rewrite HL. simpl.
  apply truthy_true in Hne. rewrite Hne.
  apply includes_false in Hfresh. by rewrite Hfresh.
Qed.

Lemma handleAddUrlFilter_noop (st : CrawlForm.FormState) (L : list string) :
  CrawlForm.url_filters (CrawlForm.formData st) = Some L →
  JS.trim (CrawlForm.urlFilterInput st) ∈ L
    ∨ JS.trim (CrawlForm.urlFilterInput st) = EmptyString →
  CrawlForm.handleAddUrlFilter st = (st, []).
Proof.
  intros HL Hcase. unfold CrawlForm.handleAddUrlFilter.
  rewrite HL. simpl. destruct Hcase as [Hin | Hempty].
  - apply includes_true in Hin. rewrite Hin. by rewrite andb_false_r.
  - by rewrite Hempty.
Qed.

(** C9. Round trip of the filter list: on a form whose list is [L] and whose
    filter input holds [f], when [f] trims to a non-empty string that is not
    in [L], adding it appends the trimmed string and removing that entry
    gives back exactly the form data with list [L]; when the trimmed string
    is already in [L] or is empty, adding changes nothing at all. *)
Theorem filter_add_remove_round_trip (st : CrawlForm.FormState) (L : list string)
    (f : string) :
  CrawlForm.url_filters (CrawlForm.formData st) = Some L →
  CrawlForm.urlFilterInput st = f →
  (JS.trim f ≠ EmptyString → JS.trim f ∉ L →
     CrawlForm.url_filters (CrawlForm.formData (CrawlForm.handleAddUrlFilter st).1)
       = Some (L ++ [JS.trim f])
     ∧ CrawlForm.formData
         (CrawlForm.handleRemoveUrlFilter (JS.trim f)
            (CrawlForm.handleAddUrlFilter st).1).1
       = CrawlForm.formData st)
  ∧ (JS.trim f ∈ L ∨ JS.trim f = EmptyString →
     CrawlForm.handleAddUrlFilter st = (st, [])).
Proof.
  intros HL <-. split.
  - intros Hne Hfresh.
    rewrite (handleAddUrlFilter_fresh st L HL Hne Hfresh). simpl.
    rewrite HL. simpl. split; [done|].
    by apply (dropFilter_appendFilter _ L).
  - apply handleAddUrlFilter_noop. exact HL.
Qed.

(** The round trip on a form that lists [.pdf] and has [  /blog ] typed. *)
Lemma filter_add_remove_round_trip_witness :
  let st := CrawlForm.setUrlFilterInput "  /blog "
              (CrawlForm.setFormData (CrawlForm.appendFilter ".pdf") CrawlForm.initialState) in
  CrawlForm.url_filters
    (CrawlForm.formData
       (CrawlForm.handleRemoveUrlFilter "/blog" (CrawlForm.handleAddUrlFilter st).1).1)
  = Some [".pdf"].
Proof.
  intros st.
  pose proof (filter_add_remove_round_trip st [".pdf"] "  /blog " eq_refl eq_refl)
    as [Hadd _].
  destruct (Hadd ltac:(vm_compute; discriminate)
                 ltac:(vm_compute; intros Hin; apply list_elem_of_In in Hin;
                       simpl in Hin; intuition discriminate)) as [_ Hback].
  change (JS.trim "  /blog ") with "/blog" in Hback.
  rewrite Hback. reflexivity.
Defined.

Lemma formData_clearValidationErrors (st : CrawlForm.FormState) :
  CrawlForm.formData (CrawlForm.clearValidationErrors st) = CrawlForm.formData st.
Proof.
  unfold CrawlForm.clearValidationErrors.
  repeat match goal with |- context [if ?b then _ else _] => destruct b end; done.
Qed.

Lemma filtersClean_empty : CrawlForm.filtersClean CrawlForm.emptyForm.
Proof. exists []. split; [done|]. split; constructor. Qed.

Lemma filtersClean_append (fd : CrawlForm.PostCrawl) (l : list string) (s : string) :
  CrawlForm.filtersClean fd →
  CrawlForm.url_filters fd = Some l →
  JS.trim s ≠ EmptyString → JS.trim s ∉ l →
  CrawlForm.filtersClean (CrawlForm.appendFilter (JS.trim s) fd).
Proof.
  intros (l' & Hl' & Hnd & Hall) Hl Hne Hfresh.
  rewrite Hl in Hl'. injection Hl' as <-.
  exists (l ++ [JS.trim s]). unfold CrawlForm.appendFilter. simpl. rewrite Hl. simpl.
  split; [done|]. split.
  - apply NoDup_app. split; [done|]. split.
    + intros x Hx Hx'. apply list_elem_of_singleton in Hx'. by subst x.
    + apply NoDup_singleton.
  - apply Forall_app. split; [done|].
    apply Forall_singleton. by apply cleanFilter_trim.
Qed.

Lemma filtersClean_drop (fd : CrawlForm.PostCrawl) (f : string) :
  CrawlForm.filtersClean fd → CrawlForm.filtersClean (CrawlForm.dropFilter f fd).
Proof.
  intros (l & Hl & Hnd & Hall).
  exists (filter (λ x, x ≠ f) l). unfold CrawlForm.dropFilter. simpl. rewrite Hl.
  split; [done|]. split.
  - by apply NoDup_filter.
  - apply Forall_forall. intros x [_ Hx]%list_elem_of_filter.
    by apply (proj1 (Forall_forall _ _) Hall).
Qed.

Lemma filtersClean_handleAddUrlFilter (st : CrawlForm.FormState) :
  CrawlForm.filtersClean (CrawlForm.formData st) →
  CrawlForm.filtersClean (CrawlForm.formData (CrawlForm.handleAddUrlFilter st).1)
  ∧ CrawlForm.requestBodies (CrawlForm.handleAddUrlFilter st).2 = [].
Proof.
  intros Hinv. destruct Hinv as (l & Hl & Hrest).
  assert (CrawlForm.filtersClean (CrawlForm.formData st)) as Hinv by (exists l; done).
  destruct (decide (JS.trim (CrawlForm.urlFilterInput st) = EmptyString)) as [He | Hne].
  { rewrite (handleAddUrlFilter_noop st l Hl) by (by right). done. }
  destruct (decide (JS.trim (CrawlForm.urlFilterInput st) ∈ l)) as [Hin | Hfresh].
  { rewrite (handleAddUrlFilter_noop st l Hl) by (by left). done. }
  rewrite (handleAddUrlFilter_fresh st l Hl Hne Hfresh). simpl. split; [|done].
  by apply (filtersClean_append _ l).
Qed.

Section FormInvariant.
Context {platform : URL.Platform}.

(** One event keeps the filter list clean, and a request it sends carries
    the form data of the state it was sent from. *)
Lemma filtersClean_dispatch (st : CrawlForm.FormState) (e : CrawlForm.event) :
  CrawlForm.filtersClean (CrawlForm.formData st) →
  CrawlForm.filtersClean (CrawlForm.formData (CrawlForm.dispatch st e).1)
  ∧ Forall CrawlForm.filtersClean
      (CrawlForm.requestBodies (CrawlForm.dispatch st e).2).
Proof.
  intros Hinv. destruct e as [v|v|v| | |f| |r| ]; simpl.
  - destruct (CrawlForm.disabled st); simpl; [done|].
    split; [|constructor]. destruct Hinv as (l & Hl & ?). by exists l.
  - destruct (CrawlForm.disabled st); simpl; [done|].
    split; [|constructor]. destruct Hinv as (l & Hl & ?). by exists l.
  - destruct (CrawlForm.disabled st); simpl; done.
  - destruct (CrawlForm.disabled st); simpl; [done|].
    destruct (filtersClean_handleAddUrlFilter st Hinv) as [? ->]. done.
  - destruct (_ || _); simpl; [done|].
    destruct (filtersClean_handleAddUrlFilter st Hinv) as [? ->]. done.
  - destruct (_ && _); simpl; [|done].
    split; [|constructor]. by apply filtersClean_drop.
  - destruct (CrawlForm.disabled st); simpl; [done|].
    unfold CrawlForm.handleSubmit_request, CrawlForm.validateForm.
    destruct (negb _); simpl; [done|].
    split; [done|]. by repeat constructor.
  - destruct (CrawlForm.isLoading st); simpl; [|done].
    destruct r as [[err|]|m]; simpl; done.
  - destruct (CrawlForm.success st); simpl; [|done].
    split; [|constructor]. apply filtersClean_empty.
Qed.

Lemma filtersClean_run (es : list CrawlForm.event) (st : CrawlForm.FormState) :
  CrawlForm.filtersClean (CrawlForm.formData st) →
  CrawlForm.filtersClean (CrawlForm.formData (CrawlForm.run st es).1)
  ∧ Forall CrawlForm.filtersClean (CrawlForm.requestBodies (CrawlForm.run st es).2).
Proof.
  revert st. induction es as [|e es IH]; intros st Hinv; simpl; [done|].
  unfold CrawlForm.step.
  destruct (filtersClean_dispatch st e Hinv) as [Hst Hout].
  destruct (CrawlForm.dispatch st e) as [st1 out1]. simpl in Hst, Hout.
  specialize (IH (CrawlForm.clearValidationErrors st1)).
  rewrite formData_clearValidationErrors in IH. specialize (IH Hst).
  destruct (CrawlForm.run (CrawlForm.clearValidationErrors st1) es) as [st2 out2].
  simpl in *. destruct IH as [IH1 IH2]. split; [done|].
  unfold CrawlForm.requestBodies in *. rewrite omap_app.
  by apply Forall_app.
Qed.

(** C2. Invariant of the filter list: after every sequence of events on a
    freshly mounted form (typing, adding and removing filters, submitting,
    the request settling, the delayed reset), [url_filters] is an array of
    entries that are non-empty and have no white space at either end, with
    no entry twice; and the body of every creation request sent during the
    session has such a list, so every submitted filter is a non-empty
    string. *)
Theorem filter_list_invariant (es : list CrawlForm.event) :
  CrawlForm.filtersClean (CrawlForm.formData (CrawlForm.run CrawlForm.initialState es).1)
  ∧ Forall CrawlForm.filtersClean
      (CrawlForm.requestBodies (CrawlForm.run CrawlForm.initialState es).2).
Proof. apply filtersClean_run. apply filtersClean_empty. Qed.

End FormInvariant.

(** ** The URL constructor on examples *)

Example newURL_https :
  URL.newURL (platform := URL.registeredNames) "https://Example.com/docs?page=2#top"
  = Some {| URL.scheme := "https"; URL.host := Some "example.com"; URL.port := None |}.
Proof. reflexivity. Qed.

Example newURL_port :
  URL.newURL (platform := URL.registeredNames) "http://user:pw@example.com:8080/"
  = Some {| URL.scheme := "http"; URL.host := Some "example.com"; URL.port := Some 8080%N |}.
Proof. reflexivity. Qed.

Example newURL_no_scheme :
  URL.newURL (platform := URL.registeredNames) "example.com" = None.
Proof. reflexivity. Qed.

Example newURL_no_host :
  URL.newURL (platform := URL.registeredNames) "https://" = None.
Proof. reflexivity. Qed.

Example newURL_port_out_of_range :
  URL.newURL (platform := URL.registeredNames) "https://example.com:65536/" = None.
Proof. reflexivity. Qed.

(** A URL with an opaque path never reaches the host parser: it parses on
    every platform. *)
Remark newURL_mailto (platform : URL.Platform) :
  URL.newURL "mailto:someone@example.com"
  = Some {| URL.scheme := "mailto"; URL.host := None; URL.port := None |}.
Proof. reflexivity. Qed.

(** The names that [registeredNames] accepts contain no forbidden domain
    code point (and no forbidden host code point). *)
Lemma isNameChar_allowed (c : ascii) :
  URL.isNameChar c = true → URL.isForbiddenDomainCodePoint c = false.
Proof.
  destruct c as [[] [] [] [] [] [] [] []]; vm_compute; congruence.
Qed.

Lemma isRegisteredName_allowed (s : string) :
  URL.isRegisteredName s = true →
  URL.allChars (λ c, negb (URL.isForbiddenDomainCodePoint c)) s = true.
Proof.
  unfold URL.isRegisteredName. destruct s as [|a s]; [done|].
  intros [_ Hall]%andb_prop. revert Hall. generalize (String a s). clear.
  intros s. induction s as [|c s IH]; [done|]. cbn [URL.allChars].
  intros [Hc Hs]%andb_prop. rewrite (isNameChar_allowed c Hc). simpl. by apply IH.
Qed.

(** ** Validation of the creation form *)
Section Validation.
Context {platform : URL.Platform}.

Lemma newURL_empty : URL.newURL "" = None.
Proof. reflexivity. Qed.

Lemma newURL_some_truthy (input : string) :
  is_Some (URL.newURL input) → JS.truthy input = true.
Proof. destruct input; [|done]. rewrite newURL_empty. by intros [? ?]. Qed.

Lemma size_zero_empty (m : gmap string string) : Nat.eqb (size m) 0 = true ↔ m = ∅.
Proof. rewrite Nat.eqb_eq. apply map_size_empty_iff. Qed.

(** The entry of [website_url] in the errors of [validateForm]. *)
Lemma validationErrorsOf_website_url (fd : CrawlForm.PostCrawl) :
  CrawlForm.validationErrorsOf fd !! "website_url" =
    if negb (JS.truthy (CrawlForm.website_url fd)) then Some "Website URL is required"
    else match URL.newURL (CrawlForm.website_url fd) with
         | Some _ => None
         | None => Some "Please enter a valid URL"
         end.
Proof.
  unfold CrawlForm.validationErrorsOf.
  destruct (negb (JS.truthy (CrawlForm.website_url fd)));
    destruct (negb (JS.truthy (CrawlForm.gemini_api_key fd)));
    try destruct (URL.newURL (CrawlForm.website_url fd)); by simplify_map_eq.
Qed.

Lemma validationErrorsOf_gemini_api_key (fd : CrawlForm.PostCrawl) :
  CrawlForm.validationErrorsOf fd !! "gemini_api_key" =
    if negb (JS.truthy (CrawlForm.gemini_api_key fd))
    then Some "Gemini API key is required" else None.
Proof.
  unfold CrawlForm.validationErrorsOf.
  destruct (negb (JS.truthy (CrawlForm.website_url fd)));
    destruct (negb (JS.truthy (CrawlForm.gemini_api_key fd)));
    try destruct (URL.newURL (CrawlForm.website_url fd)); by simplify_map_eq.
Qed.

Lemma validationErrorsOf_keys (fd : CrawlForm.PostCrawl) (k : string) :
  k ≠ "website_url" → k ≠ "gemini_api_key" → CrawlForm.validationErrorsOf fd !! k = None.
Proof.
  intros Hw Hk. unfold CrawlForm.validationErrorsOf.
  destruct (negb (JS.truthy (CrawlForm.website_url fd)));
    destruct (negb (JS.truthy (CrawlForm.gemini_api_key fd)));
    try destruct (URL.newURL (CrawlForm.website_url fd)); by simplify_map_eq.
Qed.

(** No error at all: the URL parses and a key is present. *)
Lemma validationErrorsOf_empty (fd : CrawlForm.PostCrawl) :
  CrawlForm.validationErrorsOf fd = ∅ ↔
  is_Some (URL.newURL (CrawlForm.website_url fd)) ∧ CrawlForm.gemini_api_key fd ≠ "".
Proof.
  split.
  - intros He.
    pose proof (validationErrorsOf_website_url fd) as Hw.
    pose proof (validationErrorsOf_gemini_api_key fd) as Hk.
    rewrite He, lookup_empty in Hw, Hk. split.
    + destruct (negb (JS.truthy (CrawlForm.website_url fd))); [done|].
      by destruct (URL.newURL (CrawlForm.website_url fd)).
    + apply truthy_true. by destruct (JS.truthy (CrawlForm.gemini_api_key fd)).
  - intros [Hu Hk]. apply map_eq. intros k. rewrite lookup_empty.
    destruct (decide (k = "website_url")) as [->|Hw].
    { rewrite validationErrorsOf_website_url.
      rewrite (newURL_some_truthy _ Hu). simpl. by destruct Hu as [? ->]. }
    destruct (decide (k = "gemini_api_key")) as [->|Hg].
    { rewrite validationErrorsOf_gemini_api_key.
      apply truthy_true in Hk. by rewrite Hk. }
    by apply validationErrorsOf_keys.
Qed.

Lemma validateForm_accepts (st : CrawlForm.FormState) :
  (CrawlForm.validateForm st).2 = true ↔
  is_Some (URL.newURL (CrawlForm.website_url (CrawlForm.formData st)))
  ∧ CrawlForm.gemini_api_key (CrawlForm.formData st) ≠ "".
Proof.
  unfold CrawlForm.validateForm. simpl.
  rewrite size_zero_empty. apply validationErrorsOf_empty.
Qed.

(** C1, as the form implements it. [validateForm] leaves no error on
    [website_url] exactly when [new URL(website_url)] does not throw, that
    is when the field parses as an absolute URL of whatever scheme (the
    empty field never does); it accepts the form exactly when moreover
    the API key is not empty.  When it rejects, [handleSubmit] returns
    before any request is made, the entered data is kept, and the stored
    errors are those computed, of which there is at least one; an
    unparsable URL always has a non-empty message among them. *)
Theorem validateForm_accepts_iff_URL_parses (st : CrawlForm.FormState)
    (r : CrawlForm.settled) :
  (CrawlForm.validationErrorsOf (CrawlForm.formData st) !! "website_url" = None
     ↔ is_Some (URL.newURL (CrawlForm.website_url (CrawlForm.formData st))))
  ∧ ((CrawlForm.validateForm st).2 = true
     ↔ is_Some (URL.newURL (CrawlForm.website_url (CrawlForm.formData st)))
       ∧ CrawlForm.gemini_api_key (CrawlForm.formData st) ≠ "")
  ∧ ((CrawlForm.validateForm st).2 = false →
       (CrawlForm.handleSubmit r st).2 = []
       ∧ (CrawlForm.dispatch st CrawlForm.SubmitForm).2 = []
       ∧ CrawlForm.formData (CrawlForm.handleSubmit r st).1 = CrawlForm.formData st
       ∧ CrawlForm.validationErrors (CrawlForm.handleSubmit r st).1
           = CrawlForm.validationErrorsOf (CrawlForm.formData st)
       ∧ CrawlForm.validationErrorsOf (CrawlForm.formData st) ≠ ∅)
  ∧ (URL.newURL (CrawlForm.website_url (CrawlForm.formData st)) = None →
       ∃ msg, CrawlForm.validationErrorsOf (CrawlForm.formData st) !! "website_url"
                = Some msg ∧ msg ≠ "").
Proof.
  split; [|split; [|split]].
  - rewrite validationErrorsOf_website_url.
    destruct (JS.truthy _) eqn:Ht; simpl.
    + destruct (URL.newURL _); split; try done.
    + split; [done|]. intros Hs%newURL_some_truthy. congruence.
  - apply validateForm_accepts.
  - intros Hrej. unfold CrawlForm.handleSubmit, CrawlForm.dispatch,
      CrawlForm.handleSubmit_request.
    destruct (CrawlForm.validateForm st) as [st1 valid] eqn:Hv.
    simpl in Hrej. subst valid. simpl.
    unfold CrawlForm.validateForm in Hv. injection Hv as <- Hsz.
    split; [done|]. split; [by destruct (CrawlForm.disabled st)|].
    split; [done|]. split; [done|].
    intros He. apply size_zero_empty in He. congruence.
  - intros Hnone. rewrite validationErrorsOf_website_url, Hnone.
    destruct (negb _); eexists; split; done.
Qed.

End Validation.

(** A field without a scheme is rejected and no request is made. *)
Lemma validateForm_accepts_iff_URL_parses_witness :
  (CrawlForm.handleSubmit (platform := URL.registeredNames) (CrawlForm.Resolved None)
     (CrawlForm.setFormData
        (λ _, {| CrawlForm.website_url := "example.com";
                 CrawlForm.gemini_api_key := "key";
                 CrawlForm.url_filters := Some [] |}) CrawlForm.initialState)).2 = [].
Proof.
  apply (validateForm_accepts_iff_URL_parses (platform := URL.registeredNames)
           (CrawlForm.setFormData
              (λ _, {| CrawlForm.website_url := "example.com";
                       CrawlForm.gemini_api_key := "key";
                       CrawlForm.url_filters := Some [] |}) CrawlForm.initialState)
           (CrawlForm.Resolved None)).
  vm_compute. reflexivity.
Defined.

(** The effect hook runs on the render that follows a rejected submit: the
    message stored for a field that is filled but does not parse is blanked
    at once, that of an empty field stays. *)
Remark rejected_URL_message_blanked :
  CrawlForm.validationErrors
    (CrawlForm.step (platform := URL.registeredNames)
       (CrawlForm.setFormData
          (λ _, {| CrawlForm.website_url := "example.com";
                   CrawlForm.gemini_api_key := "key";
                   CrawlForm.url_filters := Some [] |}) CrawlForm.initialState)
       CrawlForm.SubmitForm).1 !! "website_url" = Some ""
  ∧ CrawlForm.validationErrors
      (CrawlForm.step (platform := URL.registeredNames) CrawlForm.initialState
         CrawlForm.SubmitForm).1 !! "website_url" = Some "Website URL is required".
Proof. split; vm_compute; reflexivity. Qed.

(** C1, as the specification words it, fails: with a key entered the form
    accepts [ftp://example.com] and [mailto:someone@example.com], which parse
    as absolute URLs and are not HTTP(S) URLs. *)
Lemma validateForm_accepts_other_schemes :
  (CrawlForm.validateForm (platform := URL.registeredNames)
     (CrawlForm.setFormData
        (λ _, {| CrawlForm.website_url := "ftp://example.com";
                 CrawlForm.gemini_api_key := "key";
                 CrawlForm.url_filters := Some [] |}) CrawlForm.initialState)).2 = true
  ∧ URL.isAbsoluteHttpURL (platform := URL.registeredNames) "ftp://example.com" = false
  ∧ (CrawlForm.validateForm (platform := URL.registeredNames)
       (CrawlForm.setFormData
          (λ _, {| CrawlForm.website_url := "mailto:someone@example.com";
                   CrawlForm.gemini_api_key := "key";
                   CrawlForm.url_filters := Some [] |}) CrawlForm.initialState)).2 = true
  ∧ URL.isAbsoluteHttpURL (platform := URL.registeredNames) "mailto:someone@example.com" = false.
Proof. repeat split; vm_compute; reflexivity. Qed.

(** ** Submission *)
Section Submission.
Context {platform : URL.Platform}.

Lemma or_else_nonempty (a : option string) (b : string) :
  b ≠ "" → JS.or_else a b ≠ "".
Proof.
  intros Hb. unfold JS.or_else. destruct a as [s|]; simpl; [|done].
  destruct (JS.truthy s) eqn:Hs; [|done]. by apply truthy_true.
Qed.

Lemma handleSubmit_request_valid (st : CrawlForm.FormState) :
  (CrawlForm.validateForm st).2 = true →
  CrawlForm.handleSubmit_request st =
    (CrawlForm.awaiting st, [CrawlForm.ApiCrawlCreateCrawl (CrawlForm.formData st)]).
Proof.
  intros Hv. unfold CrawlForm.handleSubmit_request, CrawlForm.validateForm in *.
  simpl in Hv. rewrite Hv. simpl. apply size_zero_empty in Hv. by rewrite Hv.
Qed.

Lemma handleSubmit_valid (st : CrawlForm.FormState) (r : CrawlForm.settled) :
  (CrawlForm.validateForm st).2 = true →
  CrawlForm.handleSubmit r st =
    ((CrawlForm.handleSubmit_settled r (CrawlForm.awaiting st)).1,
     CrawlForm.ApiCrawlCreateCrawl (CrawlForm.formData st)
       :: (CrawlForm.handleSubmit_settled r (CrawlForm.awaiting st)).2).
Proof.
  intros Hv. unfold CrawlForm.handleSubmit, CrawlForm.validateForm in *.
  simpl in Hv. rewrite Hv. simpl. apply size_zero_empty in Hv. rewrite Hv.
  fold (CrawlForm.awaiting st). by destruct (CrawlForm.handleSubmit_settled r (CrawlForm.awaiting st)).
Qed.

Lemma clearValidationErrors_no_errors (st : CrawlForm.FormState) :
  CrawlForm.validationErrors st = ∅ → CrawlForm.clearValidationErrors st = st.
Proof.
  intros He. unfold CrawlForm.clearValidationErrors.
  rewrite He, !lookup_empty. done.
Qed.

Lemma validationErrors_settled (r : CrawlForm.settled) (st : CrawlForm.FormState) :
  CrawlForm.validationErrors (CrawlForm.handleSubmit_settled r st).1
    = CrawlForm.validationErrors st.
Proof. by destruct r as [[?|]|?]. Qed.

(** The two halves of [handleSubmit], delivered as events to a form whose
    controls are enabled, make up [handleSubmit]. *)
Lemma run_submit_settled (st : CrawlForm.FormState) (r : CrawlForm.settled) :
  CrawlForm.disabled st = false →
  (CrawlForm.validateForm st).2 = true →
  CrawlForm.run st [CrawlForm.SubmitForm; CrawlForm.RequestSettled r]
    = CrawlForm.handleSubmit r st.
Proof.
  intros Hd Hv. rewrite (handleSubmit_valid st r Hv).
  unfold CrawlForm.run, CrawlForm.step, CrawlForm.dispatch.
  rewrite Hd, (handleSubmit_request_valid st Hv).
  rewrite (clearValidationErrors_no_errors (CrawlForm.awaiting st)) by done.
  change (CrawlForm.isLoading (CrawlForm.awaiting st)) with true. cbv iota.
  destruct (CrawlForm.handleSubmit_settled r (CrawlForm.awaiting st)) as [st3 out] eqn:E.
  rewrite clearValidationErrors_no_errors.
  - simpl. by rewrite app_nil_r.
  - change st3 with (st3, out).1. rewrite <- E. by rewrite validationErrors_settled.
Qed.

(** C10. A creation request that fails leaves the form as entered: when
    the form passes validation (so the request is made) and the request
    resolves with an error or throws, after [handleSubmit] the form data
    (website_url, gemini_api_key, url_filters) and the filter input are
    what they were, [success] and [isLoading] are false, [error] holds a
    non-empty message, no validation error is stored, and the only effect
    is the request itself: no reset is scheduled and [onCrawlCreated] is
    not called.  Delivered as events to an enabled form, the submit and
    the settling of the request are exactly this [handleSubmit]. *)
Theorem handleSubmit_failure_keeps_form (st : CrawlForm.FormState)
    (r : CrawlForm.settled) :
  (CrawlForm.validateForm st).2 = true →
  CrawlForm.isFailure r = true →
  CrawlForm.formData (CrawlForm.handleSubmit r st).1 = CrawlForm.formData st
  ∧ CrawlForm.urlFilterInput (CrawlForm.handleSubmit r st).1 = CrawlForm.urlFilterInput st
  ∧ CrawlForm.success (CrawlForm.handleSubmit r st).1 = false
  ∧ CrawlForm.isLoading (CrawlForm.handleSubmit r st).1 = false
  ∧ (∃ m, CrawlForm.error (CrawlForm.handleSubmit r st).1 = Some m ∧ m ≠ "")
  ∧ CrawlForm.validationErrors (CrawlForm.handleSubmit r st).1 = ∅
  ∧ (CrawlForm.handleSubmit r st).2
      = [CrawlForm.ApiCrawlCreateCrawl (CrawlForm.formData st)]
  ∧ (CrawlForm.disabled st = false →
     CrawlForm.run st [CrawlForm.SubmitForm; CrawlForm.RequestSettled r]
       = CrawlForm.handleSubmit r st).
Proof.
  intros Hv Hfail.
  assert (CrawlForm.disabled st = false →
          CrawlForm.run st [CrawlForm.SubmitForm; CrawlForm.RequestSettled r]
            = CrawlForm.handleSubmit r st) as Hrun
    by (intros Hd; by apply run_submit_settled).
  revert Hrun. generalize (CrawlForm.run st [CrawlForm.SubmitForm; CrawlForm.RequestSettled r]).
  intros ran Hrun.
  rewrite (handleSubmit_valid st r Hv) in *.
  destruct r as [[err|]|m]; try discriminate; simpl in *;
    (repeat split; try done;
     eexists; split; [done|]; by apply or_else_nonempty).
Qed.

(** After a creation that succeeds, the delayed reset empties the form. *)
Lemma run_submit_success_reset (st : CrawlForm.FormState) :
  CrawlForm.disabled st = false →
  (CrawlForm.validateForm st).2 = true →
  CrawlForm.formData
    (CrawlForm.run st [CrawlForm.SubmitForm;
                       CrawlForm.RequestSettled (CrawlForm.Resolved None);
                       CrawlForm.TimeoutFired]).1 = CrawlForm.emptyForm
  ∧ (CrawlForm.run st [CrawlForm.SubmitForm;
                       CrawlForm.RequestSettled (CrawlForm.Resolved None);
                       CrawlForm.TimeoutFired]).2
    = [CrawlForm.ApiCrawlCreateCrawl (CrawlForm.formData st);
       CrawlForm.SetTimeout 2000; CrawlForm.OnCrawlCreated].
Proof.
  intros Hd Hv.
  unfold CrawlForm.run, CrawlForm.step, CrawlForm.dispatch.
  rewrite Hd, (handleSubmit_request_valid st Hv).
  rewrite (clearValidationErrors_no_errors (CrawlForm.awaiting st)) by done.
  change (CrawlForm.isLoading (CrawlForm.awaiting st)) with true. cbv iota.
  unfold CrawlForm.handleSubmit_settled.
  rewrite clearValidationErrors_no_errors by done.
  simpl. rewrite formData_clearValidationErrors. done.
Qed.

End Submission.

(** A valid form whose request resolves with an error keeps its data. *)
Lemma handleSubmit_failure_keeps_form_witness :
  CrawlForm.formData
    (CrawlForm.handleSubmit (platform := URL.registeredNames)
       (CrawlForm.Resolved (Some {| CrawlForm.detail := Some "quota exceeded" |}))
       (CrawlForm.setFormData
          (λ _, {| CrawlForm.website_url := "https://example.com";
                   CrawlForm.gemini_api_key := "key";
                   CrawlForm.url_filters := Some ["/blog"] |})
          CrawlForm.initialState)).1
  = {| CrawlForm.website_url := "https://example.com";
       CrawlForm.gemini_api_key := "key";
       CrawlForm.url_filters := Some ["/blog"] |}.
Proof.
  apply (handleSubmit_failure_keeps_form (platform := URL.registeredNames)
           (CrawlForm.setFormData
              (λ _, {| CrawlForm.website_url := "https://example.com";
                       CrawlForm.gemini_api_key := "key";
                       CrawlForm.url_filters := Some ["/blog"] |})
              CrawlForm.initialState)
           (CrawlForm.Resolved (Some {| CrawlForm.detail := Some "quota exceeded" |}))).
  - vm_compute. reflexivity.
  - reflexivity.
Defined.

(** ** Confinement of the API key *)

Ltac form_cells :=
  cbn [CrawlForm.formData CrawlForm.urlFilterInput CrawlForm.isLoading
       CrawlForm.error CrawlForm.success CrawlForm.validationErrors
       CrawlForm.website_url CrawlForm.gemini_api_key CrawlForm.url_filters
       fst snd] in *.

Ltac form_setters :=
  unfold CrawlForm.redactState, CrawlForm.setFormData, CrawlForm.setUrlFilterInput,
    CrawlForm.setIsLoading, CrawlForm.setError, CrawlForm.setSuccess,
    CrawlForm.setValidationErrors, CrawlForm.redactBody, CrawlForm.appendFilter,
    CrawlForm.dropFilter, CrawlForm.withWebsiteUrl, CrawlForm.withGeminiApiKey,
    CrawlForm.emptyForm in *.

Lemma truthy_redactKey (k : string) : JS.truthy (CrawlForm.redactKey k) = JS.truthy k.
Proof. unfold CrawlForm.redactKey. by destruct (JS.truthy k) eqn:E. Qed.

Lemma redactKey_idem (k : string) :
  CrawlForm.redactKey (CrawlForm.redactKey k) = CrawlForm.redactKey k.
Proof. unfold CrawlForm.redactKey at 1. by rewrite truthy_redactKey. Qed.

Lemma sameButKey_redactEvent (e1 e2 : CrawlForm.event) :
  CrawlForm.sameButKey e1 e2 → CrawlForm.redactEvent e1 = CrawlForm.redactEvent e2.
Proof.
  destruct e1, e2; simpl; try congruence.
  unfold CrawlForm.redactKey. by intros ->.
Qed.

Lemma handleAddUrlFilter_redact (st : CrawlForm.FormState) :
  CrawlForm.handleAddUrlFilter (CrawlForm.redactState st)
  = (CrawlForm.redactState (CrawlForm.handleAddUrlFilter st).1,
     CrawlForm.redactEffect <$> (CrawlForm.handleAddUrlFilter st).2).
Proof.
  destruct st as [[w k f] i l er s v]. unfold CrawlForm.handleAddUrlFilter.
  form_setters. form_cells. by destruct (_ && _).
Qed.

Section Confinement.
Context {platform : URL.Platform}.

Lemma validationErrorsOf_redact (fd : CrawlForm.PostCrawl) :
  CrawlForm.validationErrorsOf (CrawlForm.redactBody fd) = CrawlForm.validationErrorsOf fd.
Proof.
  unfold CrawlForm.validationErrorsOf, CrawlForm.redactBody. form_cells.
  by rewrite truthy_redactKey.
Qed.

Lemma clearValidationErrors_redact (st : CrawlForm.FormState) :
  CrawlForm.clearValidationErrors (CrawlForm.redactState st)
  = CrawlForm.redactState (CrawlForm.clearValidationErrors st).
Proof.
  destruct st as [[w k f] i l er s v]. unfold CrawlForm.clearValidationErrors.
  form_setters. form_cells. rewrite truthy_redactKey.
  generalize (JS.truthy_opt (v !! "website_url")) (JS.truthy_opt (v !! "gemini_api_key")).
  intros b1 b2. by destruct (b1 && _), (b2 && _).
Qed.

Lemma handleSubmit_request_redact (st : CrawlForm.FormState) :
  CrawlForm.handleSubmit_request (CrawlForm.redactState st)
  = (CrawlForm.redactState (CrawlForm.handleSubmit_request st).1,
     CrawlForm.redactEffect <$> (CrawlForm.handleSubmit_request st).2).
Proof.
  unfold CrawlForm.handleSubmit_request, CrawlForm.validateForm.
  change (CrawlForm.formData (CrawlForm.redactState st))
    with (CrawlForm.redactBody (CrawlForm.formData st)).
  rewrite validationErrorsOf_redact.
  generalize (CrawlForm.validationErrorsOf (CrawlForm.formData st)). intros errs.
  destruct st as [[w k f] i l er s v]. form_setters. form_cells.
  by destruct (negb _).
Qed.

(** Blanking the key commutes with every event: the form behaves on the
    blanked cells as it does on the real ones. *)
Lemma dispatch_redact (st : CrawlForm.FormState) (e : CrawlForm.event) :
  CrawlForm.dispatch (CrawlForm.redactState st) (CrawlForm.redactEvent e)
  = (CrawlForm.redactState (CrawlForm.dispatch st e).1,
     CrawlForm.redactEffect <$> (CrawlForm.dispatch st e).2).
Proof.
  destruct e as [v|v|v| | |f| |r| ]; unfold CrawlForm.dispatch, CrawlForm.redactEvent;
    change (CrawlForm.disabled (CrawlForm.redactState st)) with (CrawlForm.disabled st);
    change (CrawlForm.isLoading (CrawlForm.redactState st)) with (CrawlForm.isLoading st);
    change (CrawlForm.success (CrawlForm.redactState st)) with (CrawlForm.success st);
    change (CrawlForm.urlFilterInput (CrawlForm.redactState st))
      with (CrawlForm.urlFilterInput st).
  - destruct (CrawlForm.disabled st); [done|].
    destruct st as [[w k f] i l er s v']. done.
  - destruct (CrawlForm.disabled st); [done|].
    destruct st as [[w k f] i l er s v']. done.
  - destruct (CrawlForm.disabled st); [done|].
    destruct st as [[w k f] i l er s v']. done.
  - destruct (CrawlForm.disabled st); [done|]. apply handleAddUrlFilter_redact.
  - destruct (_ || _); [done|]. apply handleAddUrlFilter_redact.
  - change (CrawlForm.url_filters (CrawlForm.formData (CrawlForm.redactState st)))
      with (CrawlForm.url_filters (CrawlForm.formData st)).
    destruct (_ && _); [|done].
    destruct st as [[w k f'] i l er s v']. done.
  - destruct (CrawlForm.disabled st); [done|]. apply handleSubmit_request_redact.
  - destruct (CrawlForm.isLoading st); [|done].
    destruct st as [[w k f] i l er s v']. by destruct r as [[?|]|?].
  - destruct (CrawlForm.success st); [|done].
    destruct st as [[w k f] i l er s v']. done.
Qed.

Lemma step_redact (st : CrawlForm.FormState) (e : CrawlForm.event) :
  CrawlForm.step (CrawlForm.redactState st) (CrawlForm.redactEvent e)
  = (CrawlForm.redactState (CrawlForm.step st e).1,
     CrawlForm.redactEffect <$> (CrawlForm.step st e).2).
Proof.
  unfold CrawlForm.step. rewrite dispatch_redact.
  destruct (CrawlForm.dispatch st e) as [st' out]. form_cells.
  by rewrite clearValidationErrors_redact.
Qed.

Lemma run_redact (es : list CrawlForm.event) (st : CrawlForm.FormState) :
  CrawlForm.run (CrawlForm.redactState st) (CrawlForm.redactEvent <$> es)
  = (CrawlForm.redactState (CrawlForm.run st es).1,
     CrawlForm.redactEffect <$> (CrawlForm.run st es).2).
Proof.
  revert st. induction es as [|e es IH]; intros st; [done|].
  cbn [fmap list_fmap CrawlForm.run]. rewrite step_redact.
  destruct (CrawlForm.step st e) as [st1 out1]. form_cells.
  rewrite IH. destruct (CrawlForm.run st1 es) as [st2 out2]. form_cells.
  by rewrite fmap_app.
Qed.

(** C7. Confinement of the API key in the client.  (a) After a creation
    that succeeds, once the delayed reset has run, the form data is the
    empty form: [gemini_api_key] is the empty string; up to then the only
    effects are the creation request carrying the form data, the timer
    and the [onCrawlCreated] callback, which has no argument.  (b) Two
    sessions on a fresh form that differ only in the keys typed (a key is
    typed in both or in neither) perform the same effects up to the key
    field of the request bodies and end in the same cells up to the key
    cell: the key reaches the request body and nothing else, no message,
    no timer, no callback. *)
Theorem credential_confinement (st : CrawlForm.FormState)
    (es1 es2 : list CrawlForm.event) :
  CrawlForm.disabled st = false →
  (CrawlForm.validateForm st).2 = true →
  Forall2 CrawlForm.sameButKey es1 es2 →
  (CrawlForm.gemini_api_key
     (CrawlForm.formData
        (CrawlForm.run st [CrawlForm.SubmitForm;
                           CrawlForm.RequestSettled (CrawlForm.Resolved None);
                           CrawlForm.TimeoutFired]).1) = ""
   ∧ (CrawlForm.run st [CrawlForm.SubmitForm;
                        CrawlForm.RequestSettled (CrawlForm.Resolved None);
                        CrawlForm.TimeoutFired]).2
     = [CrawlForm.ApiCrawlCreateCrawl (CrawlForm.formData st);
        CrawlForm.SetTimeout 2000; CrawlForm.OnCrawlCreated])
  ∧ CrawlForm.redactEffect <$> (CrawlForm.run CrawlForm.initialState es1).2
    = CrawlForm.redactEffect <$> (CrawlForm.run CrawlForm.initialState es2).2
  ∧ CrawlForm.redactState (CrawlForm.run CrawlForm.initialState es1).1
    = CrawlForm.redactState (CrawlForm.run CrawlForm.initialState es2).1.
Proof.
  intros Hd Hv Hsame. split.
  - destruct (run_submit_success_reset st Hd Hv) as [-> ->]. done.
  - assert (CrawlForm.redactEvent <$> es1 = CrawlForm.redactEvent <$> es2) as Hes.
    { induction Hsame as [|e1 e2 l1 l2 He _ IH]; [done|].
      cbn [fmap list_fmap]. f_equal; [by apply sameButKey_redactEvent | exact IH]. }
    pose proof (run_redact es1 CrawlForm.initialState) as H1.
    pose proof (run_redact es2 CrawlForm.initialState) as H2.
    rewrite Hes in H1. rewrite H1 in H2.
    split; [exact (f_equal snd H2) | exact (f_equal fst H2)].
Qed.

End Confinement.

(** Two sessions that differ in the key typed send the same request up to the key. *)
Lemma credential_confinement_witness :
  CrawlForm.redactEffect <$>
    (CrawlForm.run (platform := URL.registeredNames) CrawlForm.initialState
       [CrawlForm.ChangeWebsiteUrl "https://example.com";
        CrawlForm.ChangeGeminiApiKey "first-key"; CrawlForm.SubmitForm]).2
  = CrawlForm.redactEffect <$>
    (CrawlForm.run (platform := URL.registeredNames) CrawlForm.initialState
       [CrawlForm.ChangeWebsiteUrl "https://example.com";
        CrawlForm.ChangeGeminiApiKey "second-key"; CrawlForm.SubmitForm]).2.
Proof.
  apply (credential_confinement (platform := URL.registeredNames)
           (CrawlForm.setFormData
              (λ _, {| CrawlForm.website_url := "https://example.com";
                       CrawlForm.gemini_api_key := "first-key";
                       CrawlForm.url_filters := Some [] |})
              CrawlForm.initialState)).
  - reflexivity.
  - vm_compute. reflexivity.
  - repeat constructor.
Defined.

(** ** The progress estimate of the crawl list *)

Example getEstimatedTime_fresh_5 : CrawlList.getEstimatedTime 5 1000 1000 = "1m remaining".
Proof. reflexivity. Qed.

Example getEstimatedTime_35_pages :
  CrawlList.getEstimatedTime 35 0 45000 = "3m 15s remaining".
Proof. reflexivity. Qed.

Example getEstimatedTime_late : CrawlList.getEstimatedTime 12 0 60000 = "Almost done".
Proof. reflexivity. Qed.

Lemma totalSeconds_small (p : Z) : (p < 10)%Z → CrawlList.totalSeconds p = 60%Z.
Proof.
  intros Hp. unfold CrawlList.totalSeconds.
  destruct (10 <=? p)%Z eqn:E; [|done]. apply Z.leb_le in E. lia.
Qed.

Lemma totalSeconds_large (p : Z) :
  (10 ≤ p)%Z → CrawlList.totalSeconds p = (60 + (p / 10 - 1) * 90)%Z.
Proof.
  intros Hp. unfold CrawlList.totalSeconds.
  destruct (10 <=? p)%Z eqn:E; [done|]. apply Z.leb_gt in E. lia.
Qed.

Lemma totalSeconds_pos (p : Z) : (60 ≤ CrawlList.totalSeconds p)%Z.
Proof.
  destruct (Z_lt_le_dec p 10) as [Hp|Hp].
  - rewrite totalSeconds_small by done. lia.
  - rewrite totalSeconds_large by done.
    assert (1 ≤ p / 10)%Z by (apply Z.div_le_lower_bound; lia). nia.
Qed.

(** C6. The estimate counts in units of ten pages: for a page count from 1
    to 9 the estimated total is 60 seconds; from 10 pages on it is
    60 + (floor(p / 10) - 1) * 90 seconds, the divisor being the default
    batch size of the Generator, so that ten more pages add exactly 90
    seconds. *)
Theorem eta_base_unit_ten_pages (p : Z) :
  ((1 ≤ p ≤ 9)%Z → CrawlList.totalSeconds p = 60%Z)
  ∧ ((10 ≤ p)%Z →
       CrawlList.totalSeconds p
         = (60 + (p / JobController.default_batch_size - 1) * 90)%Z
       ∧ CrawlList.totalSeconds (p + JobController.default_batch_size)
         = (CrawlList.totalSeconds p + 90)%Z).
Proof.
  unfold JobController.default_batch_size. split.
  - intros [_ Hp]. apply totalSeconds_small. lia.
  - intros Hp. rewrite !totalSeconds_large by lia. split; [done|].
    replace (p + 10)%Z with (p + 1 * 10)%Z by lia.
    rewrite Z.div_add by lia. lia.
Qed.

(** The estimate at 7, 34 and 44 pages. *)
Lemma eta_base_unit_ten_pages_witness :
  CrawlList.totalSeconds 7 = 60%Z
  ∧ CrawlList.totalSeconds 34 = 240%Z
  ∧ CrawlList.totalSeconds 44 = (CrawlList.totalSeconds 34 + 90)%Z.
Proof.
  split; [|split].
  - apply (eta_base_unit_ten_pages 7). lia.
  - apply (proj2 (eta_base_unit_ten_pages 34) ltac:(lia)).
  - apply (proj2 (eta_base_unit_ten_pages 34) ltac:(lia)).
Defined.

Lemma clamp_bounds (x : Q) : (0 <= Qmin 100 (Qmax 0 x))%Q ∧ (Qmin 100 (Qmax 0 x) <= 100)%Q.
Proof.
  split.
  - apply Q.min_glb; [done | apply Q.le_max_l].
  - apply Q.le_min_l.
Qed.

Example getProgressPercentage_half :
  (CrawlList.getProgressPercentage 5 0 30999 == 50)%Q.
Proof. reflexivity. Qed.

(** C8. The progress percentage is bounded: for every page count, creation
    time and current time the value of [getProgressPercentage] lies between
    0 and 100, and it is 0 for a page count of 0.  The divisor
    [totalSeconds] is at least 60, so the quotient is a number. *)
Theorem getProgressPercentage_bounded (pages createdTime currentTime : Z) :
  (0 <= CrawlList.getProgressPercentage pages createdTime currentTime)%Q
  ∧ (CrawlList.getProgressPercentage pages createdTime currentTime <= 100)%Q
  ∧ CrawlList.getProgressPercentage 0 createdTime currentTime = 0%Q
  ∧ (0 < CrawlList.totalSeconds pages)%Z.
Proof.
  unfold CrawlList.getProgressPercentage.
  split; [|split; [|split]].
  - destruct (pages =? 0)%Z; [done | apply clamp_bounds].
  - destruct (pages =? 0)%Z; [done | apply clamp_bounds].
  - reflexivity.
  - pose proof (totalSeconds_pos pages). lia.
Qed.

(** ** Searching the listing *)

Lemma queryOf_trimmed (v : string) :
  Dashboard.queryOf (JS.or_undefined (JS.trim v))
  = if JS.truthy (JS.trim v) then Some {| Dashboard.term := JS.trim v |} else None.
Proof.
  unfold JS.or_undefined, Dashboard.queryOf.
  destruct (JS.truthy (JS.trim v)) eqn:E; [by rewrite E | done].
Qed.

Lemma dispatch_search (st : CrawlList.ListState) (v : string) :
  v ≠ CrawlList.searchTerm st →
  (CrawlList.dispatch (CrawlList.dispatch st (CrawlList.ChangeSearch v)).1
     CrawlList.DebounceElapsed).2
  = [CrawlList.OnSearch (JS.or_undefined (JS.trim v))].
Proof.
  intros Hv. unfold CrawlList.dispatch at 2.
  destruct (String.eqb v (CrawlList.searchTerm st)) eqn:E.
  - apply String.eqb_eq in E. done.
  - reflexivity.
Qed.

(** Every call of [loadCrawls] that a session of the list causes carries a
    search term that is trimmed and not empty, or none. *)
Lemma run_callbacks_trimmed (es : list CrawlList.event) (st : CrawlList.ListState) :
  Forall (λ c, ∃ s, c = CrawlList.OnSearch (JS.or_undefined (JS.trim s))
                  ∨ c = CrawlList.OnRefresh (JS.or_undefined (JS.trim s)))
         (CrawlList.run st es).2.
Proof.
  revert st. induction es as [|e es IH]; intros st; simpl; [constructor|].
  destruct (CrawlList.dispatch st e) as [st1 out1] eqn:E.
  specialize (IH st1). destruct (CrawlList.run st1 es) as [st2 out2].
  simpl in *. apply Forall_app. split; [|done].
  destruct e; simpl in E.
  - destruct (String.eqb _ _); injection E as <- <-; constructor.
  - destruct (CrawlList.pendingSearch st) as [s|]; injection E as <- <-;
      repeat constructor. by exists s; left.
  - destruct (CrawlList.refreshing st); injection E as <- <-; repeat constructor.
    by exists (CrawlList.searchTerm st); right.
  - injection E as <- <-. constructor.
Qed.

(** C5. Searching the listing: when the search box is changed to [v] and
    the debounce delay passes, the list calls [onSearch] once, and the
    dashboard's [loadCrawls] then issues the ListCrawls query with
    [term] equal to [v] trimmed when that is not empty, and with no query
    parameter at all when [v] is empty or only white space; in that case
    the listing endpoint of the specification answers with every job, which
    is what the dashboard then shows.  The first query, at mount with the
    box empty, has no parameter, and in every session of the list each call
    of [loadCrawls] carries a trimmed non-empty term or none. *)
Theorem search_issues_trimmed_term (st : CrawlList.ListState) (d : Dashboard.DashState)
    (v : string) (jobs : list JobController.CrawlJob) (es : list CrawlList.event) :
  v ≠ CrawlList.searchTerm st →
  (CrawlList.dispatch (CrawlList.dispatch st (CrawlList.ChangeSearch v)).1
     CrawlList.DebounceElapsed).2
    = [CrawlList.OnSearch (JS.or_undefined (JS.trim v))]
  ∧ (Dashboard.onCallback (CrawlList.OnSearch (JS.or_undefined (JS.trim v))) d).2
    = Dashboard.ApiCrawlListCrawls
        (if JS.truthy (JS.trim v) then Some {| Dashboard.term := JS.trim v |} else None)
  ∧ (URL.allChars JS.isWhiteSpace v = true →
       (Dashboard.onCallback (CrawlList.OnSearch (JS.or_undefined (JS.trim v))) d).2
         = Dashboard.ApiCrawlListCrawls None
       ∧ Dashboard.listing
           (Dashboard.loadCrawls_settled
              (Dashboard.Resolved (Some (JobController.listCrawls None jobs)))
              (Dashboard.onCallback
                 (CrawlList.OnSearch (JS.or_undefined (JS.trim v))) d).1)
         = {| Dashboard.count := Z.of_nat (length jobs);
              Dashboard.crawls := JobController.getCrawl <$> jobs |})
  ∧ (CrawlList.dispatch CrawlList.mounted CrawlList.DebounceElapsed).2
    = [CrawlList.OnSearch None]
  ∧ Forall (λ c, ∃ s, c = CrawlList.OnSearch (JS.or_undefined (JS.trim s))
                    ∨ c = CrawlList.OnRefresh (JS.or_undefined (JS.trim s)))
           (CrawlList.run CrawlList.mounted es).2.
Proof.
  intros Hv. split; [by apply dispatch_search|].
  split; [simpl; by rewrite queryOf_trimmed|].
  split; [|split; [reflexivity | apply run_callbacks_trimmed]].
  intros Hws. simpl. rewrite queryOf_trimmed.
  apply trim_empty in Hws. rewrite Hws. done.
Qed.

(** Typing [  example.com ] in the empty box searches for [example.com]. *)
Lemma search_issues_trimmed_term_witness :
  (CrawlList.dispatch (CrawlList.dispatch CrawlList.mounted
                         (CrawlList.ChangeSearch "  example.com ")).1
     CrawlList.DebounceElapsed).2
  = [CrawlList.OnSearch (Some "example.com")].
Proof.
  apply (search_issues_trimmed_term CrawlList.mounted
           {| Dashboard.listing := {| Dashboard.count := 0; Dashboard.crawls := [] |};
              Dashboard.isLoading := false; Dashboard.showForm := false |}
           "  example.com " [] []).
  discriminate.
Defined.

(** ** The job controller of the specification *)

Lemma documentsAtomic_transition (j : JobController.CrawlJob) (c : JobController.command) :
  JobController.documentsAtomic j → JobController.documentsAtomic (JobController.transition j c).
Proof.
  unfold JobController.documentsAtomic, JobController.transition.
  destruct j as [i u fs s n t sd fd fr]; simpl.
  intros [(-> & Hs & Hf) | (Hne & -> & ->)].
  - destruct c; simpl; by left.
  - destruct s, c; simpl; try (by right); try done. left. eauto.
Qed.

Lemma documentsAtomic_run (cs : list JobController.command) (j : JobController.CrawlJob) :
  JobController.documentsAtomic j → JobController.documentsAtomic (JobController.run_job j cs).
Proof.
  revert j. induction cs as [|c cs IH]; intros j Hj; simpl; [done|].
  apply IH. by apply documentsAtomic_transition.
Qed.

Lemma terminal_transition (j : JobController.CrawlJob) (c : JobController.command) :
  JobController.isTerminal (JobController.status j) = true →
  JobController.transition j c = j.
Proof.
  unfold JobController.transition. destruct (JobController.status j); try done.
Qed.

Lemma terminal_run (cs : list JobController.command) (j : JobController.CrawlJob) :
  JobController.isTerminal (JobController.status j) = true →
  JobController.run_job j cs = j.
Proof.
  intros Ht. induction cs as [|c cs IH]; simpl; [done|].
  by rewrite terminal_transition.
Qed.

Lemma isCompleted_getCrawl (j : JobController.CrawlJob) :
  CrawlList.isCompleted (JobController.getCrawl j) = true
  ↔ JobController.status j = JobController.completed.
Proof.
  unfold CrawlList.isCompleted, JobController.getCrawl. simpl.
  destruct (JobController.status j); simpl; split; done.
Qed.

(** The list offers a download only on a card whose status reads
    completed. *)
Lemma offers_only_completed (crawl : CrawlList.Crawl) :
  CrawlList.offersLlms crawl = true ∨ CrawlList.offersLlmsFull crawl = true →
  CrawlList.isCompleted crawl = true.
Proof.
  unfold CrawlList.offersLlms, CrawlList.offersLlmsFull.
  intros [[? _]%andb_prop | [? _]%andb_prop]; done.
Qed.

(** C3. Atomicity of the output documents: at every point of the life of a
    job of the controller, the summary document is set exactly when the
    full document is, and exactly when the status is completed; the list
    renders the Downloads block of the job exactly then, and offers no
    download in any other status. *)
Theorem output_documents_atomic (id : Z) (seed : string) (fs : list string) (now : Z)
    (cs : list JobController.command) :
  (is_Some (JobController.summary_doc
              (JobController.run_job (JobController.created_job id seed fs now) cs))
   ↔ is_Some (JobController.full_doc
                (JobController.run_job (JobController.created_job id seed fs now) cs)))
  ∧ (is_Some (JobController.summary_doc
                (JobController.run_job (JobController.created_job id seed fs now) cs))
     ↔ JobController.status
         (JobController.run_job (JobController.created_job id seed fs now) cs)
       = JobController.completed)
  ∧ (CrawlList.isCompleted
       (JobController.getCrawl
          (JobController.run_job (JobController.created_job id seed fs now) cs)) = true
     ↔ JobController.status
         (JobController.run_job (JobController.created_job id seed fs now) cs)
       = JobController.completed)
  ∧ (CrawlList.isCompleted
       (JobController.getCrawl
          (JobController.run_job (JobController.created_job id seed fs now) cs)) = false
     → CrawlList.offersLlms
         (JobController.getCrawl
            (JobController.run_job (JobController.created_job id seed fs now) cs)) = false
       ∧ CrawlList.offersLlmsFull
           (JobController.getCrawl
              (JobController.run_job (JobController.created_job id seed fs now) cs)) = false).
Proof.
  assert (JobController.documentsAtomic
            (JobController.run_job (JobController.created_job id seed fs now) cs)) as Hinv.
  { apply documentsAtomic_run. right. done. }
  generalize dependent (JobController.run_job (JobController.created_job id seed fs now) cs).
  intros j Hinv. split; [|split; [|split]].
  - destruct Hinv as [(_ & Hs & Hf) | (_ & -> & ->)]; done.
  - destruct Hinv as [(Hc & Hs & Hf) | (Hne & Hs & Hf)]; [done|].
    rewrite Hs. split; [by intros [? ?] | done].
  - apply isCompleted_getCrawl.
  - unfold CrawlList.offersLlms, CrawlList.offersLlmsFull. by intros ->.
Qed.

(** A job cancelled while running offers no download, whatever comes later. *)
Lemma output_documents_atomic_witness :
  CrawlList.offersLlms
    (JobController.getCrawl
       (JobController.run_job (JobController.created_job 1 "https://example.com" [] 0)
          [JobController.Start; JobController.PageHandedOff; JobController.CancelJob;
           JobController.AllBatchesDone "llms.txt" "llms-full.txt"])) = false.
Proof.
  apply (output_documents_atomic 1 "https://example.com" [] 0
           [JobController.Start; JobController.PageHandedOff; JobController.CancelJob;
            JobController.AllBatchesDone "llms.txt" "llms-full.txt"]).
  reflexivity.
Defined.

(** C4. The status state machine: at every point of the life of a job its
    status is one of pending, in_progress, completed and failed, the list
    shows it under one of its four named badges, and once the status is
    completed or failed no further command changes the job. *)
Theorem job_status_state_machine (id : Z) (seed : string) (fs : list string) (now : Z)
    (cs later : list JobController.command) :
  JobController.status
    (JobController.run_job (JobController.created_job id seed fs now) cs)
    ∈ [JobController.pending; JobController.in_progress;
       JobController.completed; JobController.failed]
  ∧ CrawlList.label
      (CrawlList.getStatusConfig
         (CrawlList.status
            (JobController.getCrawl
               (JobController.run_job (JobController.created_job id seed fs now) cs))))
    ∈ ["Pending"; "In Progress"; "Completed"; "Failed"]
  ∧ (JobController.isTerminal
       (JobController.status
          (JobController.run_job (JobController.created_job id seed fs now) cs)) = true
     → JobController.run_job
         (JobController.run_job (JobController.created_job id seed fs now) cs) later
       = JobController.run_job (JobController.created_job id seed fs now) cs).
Proof.
  generalize (JobController.run_job (JobController.created_job id seed fs now) cs).
  intros j. split; [|split].
  - destruct (JobController.status j); set_solver.
  - simpl. destruct (JobController.status j); vm_compute; set_solver.
  - apply terminal_run.
Qed.

(** A failed job ignores a late completion and a restart. *)
Lemma job_status_state_machine_witness :
  JobController.run_job
    (JobController.run_job (JobController.created_job 1 "https://example.com" [] 0)
       [JobController.Start; JobController.GenerationGaveUp])
    [JobController.AllBatchesDone "llms.txt" "llms-full.txt"; JobController.Start]
  = JobController.run_job (JobController.created_job 1 "https://example.com" [] 0)
      [JobController.Start; JobController.GenerationGaveUp].
Proof.
  apply (job_status_state_machine 1 "https://example.com" [] 0
           [JobController.Start; JobController.GenerationGaveUp]
           [JobController.AllBatchesDone "llms.txt" "llms-full.txt"; JobController.Start]).
  reflexivity.
Defined.

(** * Further properties of the client *)

(** ** Sessions of the creation form *)
Section FormSessions.
Context {platform : URL.Platform}.

Lemma validBody_dispatch (st : CrawlForm.FormState) (e : CrawlForm.event) :
  Forall Session.validBody (CrawlForm.requestBodies (CrawlForm.dispatch st e).2).
Proof.
  destruct e as [v|v|v| | |f| |r| ]; simpl.
  - by destruct (CrawlForm.disabled st).
  - by destruct (CrawlForm.disabled st).
  - by destruct (CrawlForm.disabled st).
  - destruct (CrawlForm.disabled st); [done|].
    unfold CrawlForm.handleAddUrlFilter. by destruct (_ && _).
  - destruct (_ || _); [done|].
    unfold CrawlForm.handleAddUrlFilter. by destruct (_ && _).
  - by destruct (_ && _).
  - destruct (CrawlForm.disabled st); [done|].
    destruct ((CrawlForm.validateForm st).2) eqn:Hv.
    + rewrite (handleSubmit_request_valid st Hv). simpl.
      constructor; [|constructor]. by apply validateForm_accepts.
    + unfold CrawlForm.handleSubmit_request.
      destruct (CrawlForm.validateForm st) as [st1 valid]. simpl in Hv. by subst.
  - destruct (CrawlForm.isLoading st); [|done]. by destruct r as [[?|]|?].
  - by destruct (CrawlForm.success st).
Qed.

(** X1. The form never sends what it would reject: in every session,
    from whatever state, the body of each creation request has a
    [website_url] that [new URL] parses and a non-empty [gemini_api_key]. *)
Theorem requests_carry_validated_bodies (es : list CrawlForm.event)
    (st : CrawlForm.FormState) :
  Forall Session.validBody (CrawlForm.requestBodies (CrawlForm.run st es).2).
Proof.
  revert st. induction es as [|e es IH]; intros st; simpl; [constructor|].
  unfold CrawlForm.step.
  pose proof (validBody_dispatch st e) as Hd.
  destruct (CrawlForm.dispatch st e) as [st1 out1].
  specialize (IH (CrawlForm.clearValidationErrors st1)).
  destruct (CrawlForm.run (CrawlForm.clearValidationErrors st1) es) as [st2 out2].
  simpl in *. unfold CrawlForm.requestBodies in *. rewrite omap_app.
  by apply Forall_app.
Qed.

End FormSessions.

Lemma cells_clearValidationErrors (st : CrawlForm.FormState) :
  CrawlForm.isLoading (CrawlForm.clearValidationErrors st) = CrawlForm.isLoading st
  ∧ CrawlForm.success (CrawlForm.clearValidationErrors st) = CrawlForm.success st
  ∧ CrawlForm.error (CrawlForm.clearValidationErrors st) = CrawlForm.error st
  ∧ CrawlForm.urlFilterInput (CrawlForm.clearValidationErrors st)
    = CrawlForm.urlFilterInput st.
Proof.
  unfold CrawlForm.clearValidationErrors.
  repeat match goal with |- context [if ?b then _ else _] => destruct b end; done.
Qed.

Lemma cellsCoherent_clear (st : CrawlForm.FormState) :
  Session.cellsCoherent st → Session.cellsCoherent (CrawlForm.clearValidationErrors st).
Proof.
  intros [Hls Hload]. destruct (cells_clearValidationErrors st) as (Hl & Hs & He & _).
  split; [by rewrite Hl, Hs|].
  rewrite Hl, He. intros Htrue. destruct (Hload Htrue) as [Herr Hve].
  by rewrite (clearValidationErrors_no_errors st Hve).
Qed.

Lemma cellsCoherent_same (st st' : CrawlForm.FormState) :
  CrawlForm.isLoading st' = CrawlForm.isLoading st →
  CrawlForm.success st' = CrawlForm.success st →
  CrawlForm.error st' = CrawlForm.error st →
  CrawlForm.validationErrors st' = CrawlForm.validationErrors st →
  Session.cellsCoherent st → Session.cellsCoherent st'.
Proof. unfold Session.cellsCoherent. by intros -> -> -> ->. Qed.

Lemma handleAddUrlFilter_cells (st : CrawlForm.FormState) :
  CrawlForm.isLoading (CrawlForm.handleAddUrlFilter st).1 = CrawlForm.isLoading st
  ∧ CrawlForm.success (CrawlForm.handleAddUrlFilter st).1 = CrawlForm.success st
  ∧ CrawlForm.error (CrawlForm.handleAddUrlFilter st).1 = CrawlForm.error st
  ∧ CrawlForm.validationErrors (CrawlForm.handleAddUrlFilter st).1
    = CrawlForm.validationErrors st.
Proof.
  unfold CrawlForm.handleAddUrlFilter.
  match goal with |- context [if ?b then _ else _] => destruct b end; done.
Qed.

Section FormCells.
Context {platform : URL.Platform}.

Lemma cellsCoherent_dispatch (st : CrawlForm.FormState) (e : CrawlForm.event) :
  Session.cellsCoherent st → Session.cellsCoherent (CrawlForm.dispatch st e).1.
Proof.
  intros Hc. pose proof Hc as [Hls Hload].
  destruct e as [v|v|v| | |f| |r| ]; simpl.
  - destruct (CrawlForm.disabled st); [done|]. by apply (cellsCoherent_same st).
  - destruct (CrawlForm.disabled st); [done|]. by apply (cellsCoherent_same st).
  - destruct (CrawlForm.disabled st); [done|]. by apply (cellsCoherent_same st).
  - destruct (CrawlForm.disabled st); [done|].
    apply (cellsCoherent_same st); try done; apply handleAddUrlFilter_cells.
  - destruct (_ || _); [done|].
    apply (cellsCoherent_same st); try done; apply handleAddUrlFilter_cells.
  - match goal with |- context [if ?b then _ else _] => destruct b end; [|done].
    by apply (cellsCoherent_same st).
  - destruct (CrawlForm.disabled st) eqn:Hd; [done|].
    apply orb_false_elim in Hd as [Hl Hs].
    destruct ((CrawlForm.validateForm st).2) eqn:Hv.
    + rewrite (handleSubmit_request_valid st Hv).
      unfold Session.cellsCoherent. simpl. by split.
    + unfold CrawlForm.handleSubmit_request.
      destruct (CrawlForm.validateForm st) as [st1 valid] eqn:E. simpl in Hv. subst valid.
      simpl. unfold CrawlForm.validateForm in E. injection E as <-.
      unfold Session.cellsCoherent. simpl. rewrite Hl. by split.
  - destruct (CrawlForm.isLoading st) eqn:Hl; [|done].
    destruct r as [[err|]|m]; unfold Session.cellsCoherent; simpl; by split.
  - destruct (CrawlForm.success st) eqn:Hs; [|done].
    unfold Session.cellsCoherent. simpl. rewrite andb_false_r. split; [done|].
    intros Hl. rewrite Hl in Hls. done.
Qed.

(** One request more than settled at most, counting the one awaited. *)
Lemma requests_dispatch (st : CrawlForm.FormState) (e : CrawlForm.event) :
  (length (CrawlForm.requestBodies (CrawlForm.dispatch st e).2)
   + (if CrawlForm.isLoading st then 1 else 0)
   ≤ (if Session.isRequestSettled e then 1 else 0)
     + (if CrawlForm.isLoading (CrawlForm.dispatch st e).1 then 1 else 0))%nat.
Proof.
  destruct e as [v|v|v| | |f| |r| ]; simpl.
  - destruct (CrawlForm.disabled st); simpl; lia.
  - destruct (CrawlForm.disabled st); simpl; lia.
  - destruct (CrawlForm.disabled st); simpl; lia.
  - destruct (CrawlForm.disabled st); simpl; [lia|].
    unfold CrawlForm.handleAddUrlFilter. destruct (_ && _); simpl; lia.
  - destruct (_ || _); simpl; [lia|].
    unfold CrawlForm.handleAddUrlFilter. destruct (_ && _); simpl; lia.
  - match goal with |- context [if ?b then _ else _] => destruct b end; simpl; lia.
  - destruct (CrawlForm.disabled st) eqn:Hd; simpl; [lia|].
    apply orb_false_elim in Hd as [Hl Hs]. rewrite Hl.
    destruct ((CrawlForm.validateForm st).2) eqn:Hv.
    + rewrite (handleSubmit_request_valid st Hv). simpl. lia.
    + unfold CrawlForm.handleSubmit_request.
      destruct (CrawlForm.validateForm st) as [st1 valid]. simpl in Hv. subst valid.
      simpl. lia.
  - destruct (CrawlForm.isLoading st) eqn:Hl; simpl; [|rewrite Hl; lia].
    destruct r as [[err|]|m]; simpl; lia.
  - destruct (CrawlForm.success st); simpl; lia.
Qed.

Lemma session_cells_run (es : list CrawlForm.event) (st : CrawlForm.FormState) :
  Session.cellsCoherent st →
  Session.cellsCoherent (CrawlForm.run st es).1
  ∧ (length (CrawlForm.requestBodies (CrawlForm.run st es).2)
     + (if CrawlForm.isLoading st then 1 else 0)
     ≤ Session.countSettled es
       + (if CrawlForm.isLoading (CrawlForm.run st es).1 then 1 else 0))%nat.
Proof.
  revert st. induction es as [|e es IH]; intros st Hc; simpl; [split; [done|lia]|].
  unfold CrawlForm.step.
  pose proof (cellsCoherent_dispatch st e Hc) as Hc1.
  pose proof (requests_dispatch st e) as Hn.
  destruct (CrawlForm.dispatch st e) as [st1 out1]. simpl in Hc1, Hn.
  apply cellsCoherent_clear in Hc1.
  destruct (IH _ Hc1) as [Hc2 Hn2].
  destruct (cells_clearValidationErrors st1) as (Hl & _). rewrite Hl in Hn2.
  destruct (CrawlForm.run (CrawlForm.clearValidationErrors st1) es) as [st2 out2].
  simpl in *. split; [done|].
  unfold CrawlForm.requestBodies in *. rewrite omap_app, length_app.
  unfold Session.countSettled in *. simpl.
  destruct (Session.isRequestSettled e); simpl; lia.
Qed.

(** X2. No double submit.  In every session on a freshly mounted form the form
    never awaits a request while the success banner shows, stores no error
    and no validation message while it awaits one, and has sent at most one
    creation request more than have settled: a second request is never sent
    while the first is awaited. *)
Theorem at_most_one_request_awaited (es : list CrawlForm.event) :
  Session.cellsCoherent (CrawlForm.run CrawlForm.initialState es).1
  ∧ (length (CrawlForm.requestBodies (CrawlForm.run CrawlForm.initialState es).2)
     ≤ Session.countSettled es + 1)%nat.
Proof.
  destruct (session_cells_run es CrawlForm.initialState) as [Hc Hn].
  { split; [done|]. simpl. done. }
  split; [done|]. simpl in Hn.
  destruct (CrawlForm.isLoading (CrawlForm.run CrawlForm.initialState es).1); lia.
Qed.

End FormCells.

(** ** Validation messages after a render *)

Lemma lookup_clear_website_url (st : CrawlForm.FormState) :
  CrawlForm.validationErrors (CrawlForm.clearValidationErrors st) !! "website_url"
  = if JS.truthy_opt (CrawlForm.validationErrors st !! "website_url")
       && JS.truthy (CrawlForm.website_url (CrawlForm.formData st))
    then Some "" else CrawlForm.validationErrors st !! "website_url".
Proof.
  unfold CrawlForm.clearValidationErrors.
  destruct (JS.truthy_opt (CrawlForm.validationErrors st !! "website_url")
            && JS.truthy (CrawlForm.website_url (CrawlForm.formData st)));
    destruct (JS.truthy_opt (CrawlForm.validationErrors st !! "gemini_api_key")
              && JS.truthy (CrawlForm.gemini_api_key (CrawlForm.formData st)));
    destruct st as [fd i l er s ve]; cbn [CrawlForm.validationErrors
      CrawlForm.setValidationErrors CrawlForm.formData];
    by simplify_map_eq.
Qed.

Lemma lookup_clear_gemini_api_key (st : CrawlForm.FormState) :
  CrawlForm.validationErrors (CrawlForm.clearValidationErrors st) !! "gemini_api_key"
  = if JS.truthy_opt (CrawlForm.validationErrors st !! "gemini_api_key")
       && JS.truthy (CrawlForm.gemini_api_key (CrawlForm.formData st))
    then Some "" else CrawlForm.validationErrors st !! "gemini_api_key".
Proof.
  unfold CrawlForm.clearValidationErrors.
  destruct (JS.truthy_opt (CrawlForm.validationErrors st !! "website_url")
            && JS.truthy (CrawlForm.website_url (CrawlForm.formData st)));
    destruct (JS.truthy_opt (CrawlForm.validationErrors st !! "gemini_api_key")
              && JS.truthy (CrawlForm.gemini_api_key (CrawlForm.formData st)));
    destruct st as [fd i l er s ve]; cbn [CrawlForm.validationErrors
      CrawlForm.setValidationErrors CrawlForm.formData];
    by simplify_map_eq.
Qed.

Section Messages.
Context {platform : URL.Platform}.

(** X3. After the render that follows any event, a field that is filled shows
    no validation message: the message stored for a non-empty [website_url],
    respectively [gemini_api_key], is absent or blank. *)
Theorem filled_field_shows_no_message (st : CrawlForm.FormState) (e : CrawlForm.event) :
  (CrawlForm.website_url (CrawlForm.formData (CrawlForm.step st e).1) ≠ "" →
   JS.truthy_opt (CrawlForm.validationErrors (CrawlForm.step st e).1 !! "website_url")
     = false)
  ∧ (CrawlForm.gemini_api_key (CrawlForm.formData (CrawlForm.step st e).1) ≠ "" →
     JS.truthy_opt
       (CrawlForm.validationErrors (CrawlForm.step st e).1 !! "gemini_api_key") = false).
Proof.
  unfold CrawlForm.step. destruct (CrawlForm.dispatch st e) as [st1 out]. simpl.
  rewrite formData_clearValidationErrors.
  rewrite lookup_clear_website_url, lookup_clear_gemini_api_key.
  split; intros Hne%truthy_true; rewrite Hne, andb_true_r.
  - by destruct (JS.truthy_opt (CrawlForm.validationErrors st1 !! "website_url")) eqn:E.
  - by destruct (JS.truthy_opt (CrawlForm.validationErrors st1 !! "gemini_api_key")) eqn:E.
Qed.

End Messages.

(** A form with [example.com] typed and submitted shows no message on the
    field. *)
Lemma filled_field_shows_no_message_witness :
  JS.truthy_opt
    (CrawlForm.validationErrors
       (CrawlForm.step (platform := URL.registeredNames)
          (CrawlForm.setFormData (CrawlForm.withWebsiteUrl "example.com")
             CrawlForm.initialState)
          CrawlForm.SubmitForm).1 !! "website_url") = false.
Proof.
  apply (filled_field_shows_no_message (platform := URL.registeredNames)
           (CrawlForm.setFormData (CrawlForm.withWebsiteUrl "example.com")
              CrawlForm.initialState) CrawlForm.SubmitForm).
  vm_compute. discriminate.
Defined.

Lemma urlMessageSettled_clear (st : CrawlForm.FormState) :
  (∀ m, CrawlForm.validationErrors st !! "website_url" = Some m →
        CrawlForm.website_url (CrawlForm.formData st) = "" →
        m = "" ∨ m = "Website URL is required") →
  Session.urlMessageSettled (CrawlForm.clearValidationErrors st).
Proof.
  intros Hst m. rewrite lookup_clear_website_url, formData_clearValidationErrors.
  destruct (JS.truthy (CrawlForm.website_url (CrawlForm.formData st))) eqn:Hu.
  - rewrite andb_true_r.
    destruct (CrawlForm.validationErrors st !! "website_url") as [m'|] eqn:Hm; simpl.
    + destruct (JS.truthy m') eqn:Ht; intros [= <-]; left; [done|].
      by apply truthy_false.
    + discriminate.
  - rewrite andb_false_r. apply truthy_false in Hu. intros Hm.
    destruct (Hst m Hm Hu) as [-> | ->]; [by left | by right].
Qed.

Section MessageSessions.
Context {platform : URL.Platform}.

Lemma validationErrors_dispatch (st : CrawlForm.FormState) (e : CrawlForm.event) :
  e ≠ CrawlForm.SubmitForm →
  CrawlForm.validationErrors (CrawlForm.dispatch st e).1 = CrawlForm.validationErrors st.
Proof.
  intros He. destruct e as [v|v|v| | |f| |r| ]; try done; simpl.
  - by destruct (CrawlForm.disabled st).
  - by destruct (CrawlForm.disabled st).
  - by destruct (CrawlForm.disabled st).
  - destruct (CrawlForm.disabled st); [done|]. apply handleAddUrlFilter_cells.
  - destruct (_ || _); [done|]. apply handleAddUrlFilter_cells.
  - by match goal with |- context [if ?b then _ else _] => destruct b end.
  - destruct (CrawlForm.isLoading st); [|done]. apply validationErrors_settled.
  - by destruct (CrawlForm.success st).
Qed.

Lemma urlMessageSettled_step (st : CrawlForm.FormState) (e : CrawlForm.event) :
  Session.urlMessageSettled st → Session.urlMessageSettled (CrawlForm.step st e).1.
Proof.
  intros Hst. unfold CrawlForm.step.
  destruct (CrawlForm.dispatch st e) as [st1 out] eqn:E. simpl.
  apply urlMessageSettled_clear. intros m Hm Hu.
  assert (e = CrawlForm.SubmitForm ∨ e ≠ CrawlForm.SubmitForm) as [-> | Hne]
    by (destruct e; auto; right; discriminate).
  - simpl in E. destruct (CrawlForm.disabled st).
    { injection E as <- _. destruct (Hst m Hm) as [-> | [-> _]]; auto. }
    unfold CrawlForm.handleSubmit_request, CrawlForm.validateForm in E.
    destruct (negb _) eqn:Hv; injection E as <- _; simpl in *.
    + rewrite validationErrorsOf_website_url, Hu in Hm. simpl in Hm.
      injection Hm as <-. by right.
    + rewrite validationErrorsOf_website_url, Hu in Hm. simpl in Hm.
      injection Hm as <-. by right.
  - pose proof (validationErrors_dispatch st e Hne) as Hve.
    rewrite E in Hve. simpl in Hve. rewrite Hve in Hm.
    destruct (Hst m Hm) as [-> | [-> _]]; auto.
Qed.

(** X4. The text of an unparsable URL never stays.  In every session on a
    freshly mounted form, once the render after the last event is done, the
    message stored for [website_url] is absent, blank, or the message of the
    empty field on an empty field; it is never [Please enter a valid URL]. *)
Theorem invalid_URL_message_never_stays (es : list CrawlForm.event) :
  Session.urlMessageSettled (CrawlForm.run CrawlForm.initialState es).1
  ∧ CrawlForm.validationErrors (CrawlForm.run CrawlForm.initialState es).1
      !! "website_url" ≠ Some "Please enter a valid URL".
Proof.
  assert (∀ st, Session.urlMessageSettled st →
                Session.urlMessageSettled (CrawlForm.run st es).1) as Hrun.
  { induction es as [|e es IH]; intros st Hst; simpl; [done|].
    pose proof (urlMessageSettled_step st e Hst) as H1.
    destruct (CrawlForm.step st e) as [st1 out1]. simpl in H1.
    specialize (IH st1 H1). by destruct (CrawlForm.run st1 es). }
  assert (Session.urlMessageSettled (CrawlForm.run CrawlForm.initialState es).1) as Hfin.
  { apply Hrun. intros m. simpl. by rewrite lookup_empty. }
  split; [done|]. intros Hm. destruct (Hfin _ Hm) as [? | [? _]]; discriminate.
Qed.

End MessageSessions.

(** ** More on the filter list *)

(** X5. Adding twice adds once: [handleAddUrlFilter] empties the filter input
    when it adds, so running it again on the result changes nothing and has
    no effect, whatever the list and the input were. *)
Theorem handleAddUrlFilter_twice (st : CrawlForm.FormState) :
  CrawlForm.handleAddUrlFilter (CrawlForm.handleAddUrlFilter st).1
  = ((CrawlForm.handleAddUrlFilter st).1, []).
Proof.
  unfold CrawlForm.handleAddUrlFilter at 2 3.
  destruct (JS.truthy (JS.trim (CrawlForm.urlFilterInput st))
            && negb (default false
                       ((λ l, JS.includes l (JS.trim (CrawlForm.urlFilterInput st)))
                          <$> CrawlForm.url_filters (CrawlForm.formData st)))) eqn:E.
  - reflexivity.
  - unfold CrawlForm.handleAddUrlFilter. simpl. by rewrite E.
Qed.

Lemma filter_ne_length (l : list string) (f : string) :
  NoDup l → f ∈ l → (length (filter (λ x, x ≠ f) l) + 1 = length l)%nat.
Proof.
  induction l as [|a l IH]; intros Hnd Hin; [by apply elem_of_nil in Hin|].
  apply NoDup_cons in Hnd as [Ha Hnd].
  destruct (decide (a = f)) as [-> | Hne].
  - rewrite filter_cons_False by (intros Hn; by apply Hn).
    assert (filter (λ x, x ≠ f) l = l) as ->; [|simpl; lia].
    clear IH Hin Hnd. induction l as [|b l IH]; [done|].
    apply not_elem_of_cons in Ha as [Hb Hl].
    rewrite filter_cons_True by done. by rewrite IH.
  - rewrite filter_cons_True by done. simpl.
    apply elem_of_cons in Hin as [-> | Hin]; [done|].
    specialize (IH Hnd Hin). lia.
Qed.

Section BadgeRemoval.
Context {platform : URL.Platform}.

(** X6. Clicking a badge removes that filter and nothing else.  In every state
    a session on a freshly mounted form reaches, with list [l] and [f] in
    [l], [handleRemoveUrlFilter f] leaves a list without [f], one entry
    shorter, whose entries are those of [l] other than [f] in the same
    order. *)
Theorem handleRemoveUrlFilter_removes_one (es : list CrawlForm.event) (l : list string)
    (f : string) :
  CrawlForm.url_filters
    (CrawlForm.formData (CrawlForm.run CrawlForm.initialState es).1) = Some l →
  f ∈ l →
  ∃ l', CrawlForm.url_filters
          (CrawlForm.formData
             (CrawlForm.handleRemoveUrlFilter f
                (CrawlForm.run CrawlForm.initialState es).1).1) = Some l'
        ∧ (f ∉ l')
        ∧ (length l' + 1 = length l)%nat
        ∧ sublist l' l
        ∧ (∀ x, x ≠ f → (x ∈ l' ↔ x ∈ l)).
Proof.
  intros Hl Hin.
  destruct (filtersClean_run es CrawlForm.initialState filtersClean_empty)
    as [(l0 & Hl0 & Hnd & _) _].
  rewrite Hl in Hl0. injection Hl0 as <-.
  exists (filter (λ x, x ≠ f) l). simpl. rewrite Hl. simpl.
  split; [done|]. split; [|split; [|split]].
  - intros [Hf _]%list_elem_of_filter. by apply Hf.
  - by apply filter_ne_length.
  - apply sublist_filter.
  - intros x Hx. rewrite list_elem_of_filter. split; [by intros [_ ?] | by split].
Qed.

End BadgeRemoval.

(** Two filters added, the first one removed again. *)
Lemma handleRemoveUrlFilter_removes_one_witness :
  ∃ l', CrawlForm.url_filters
          (CrawlForm.formData
             (CrawlForm.handleRemoveUrlFilter "/blog"
                (CrawlForm.run (platform := URL.registeredNames) CrawlForm.initialState
                   [CrawlForm.ChangeUrlFilterInput "/blog"; CrawlForm.KeyDownEnter;
                    CrawlForm.ChangeUrlFilterInput ".pdf"; CrawlForm.ClickAdd]).1).1)
        = Some l' ∧ "/blog" ∉ l'.
Proof.
  destruct (handleRemoveUrlFilter_removes_one (platform := URL.registeredNames)
              [CrawlForm.ChangeUrlFilterInput "/blog"; CrawlForm.KeyDownEnter;
               CrawlForm.ChangeUrlFilterInput ".pdf"; CrawlForm.ClickAdd]
              ["/blog"; ".pdf"] "/blog")
    as (l' & Hl' & Hf & _).
  - vm_compute. reflexivity.
  - apply elem_of_cons. by left.
  - exists l'. by split.
Defined.

(** ** A URL needs a scheme *)
Section NoScheme.
Variable c : ascii.

Lemma contains_stripStart p s :
  Session.contains c s = false → Session.contains c (JS.stripStart p s) = false.
Proof.
  induction s as [|a s IH]; simpl; [done|].
  intros [Ha Hs]%orb_false_elim. destruct (p a); [by apply IH|].
  simpl. by rewrite Ha, Hs.
Qed.

Lemma contains_stripEnd p s :
  Session.contains c s = false → Session.contains c (JS.stripEnd p s) = false.
Proof.
  induction s as [|a s IH]; simpl; [done|].
  intros [Ha Hs]%orb_false_elim. specialize (IH Hs).
  destruct (JS.stripEnd p s) as [|b r].
  - destruct (p a); simpl; [done|]. by rewrite Ha.
  - cbn [Session.contains] in *. by rewrite Ha, IH.
Qed.

Lemma contains_removeAll p s :
  Session.contains c s = false → Session.contains c (URL.removeAll p s) = false.
Proof.
  induction s as [|a s IH]; simpl; [done|].
  intros [Ha Hs]%orb_false_elim. destruct (p a); [by apply IH|].
  simpl. by rewrite Ha, IH.
Qed.
End NoScheme.

Section SchemeRequired.
Context {platform : URL.Platform}.

Lemma schemeState_no_colon (s buffer : string) :
  Session.contains ":" s = false → URL.schemeState buffer s = None.
Proof.
  revert buffer. induction s as [|a s IH]; intros buffer; simpl; [done|].
  intros [Ha Hs]%orb_false_elim.
  destruct (URL.isSchemeChar a); [by apply IH|]. by rewrite Ha.
Qed.

Lemma newURL_no_colon (input : string) :
  Session.contains ":" input = false → URL.newURL input = None.
Proof.
  intros Hc. unfold URL.newURL, URL.basicURLParser.
  apply (contains_stripStart _ URL.isC0ControlOrSpace) in Hc.
  apply (contains_stripEnd _ URL.isC0ControlOrSpace) in Hc.
  apply (contains_removeAll _ URL.isTabOrNewline) in Hc.
  destruct (URL.removeAll _ _) as [|a s]; [done|]. simpl in *.
  apply orb_false_elim in Hc as [_ Hs].
  destruct (URL.isAsciiAlpha a); [|done]. by apply schemeState_no_colon.
Qed.

(** X7. A website without a scheme is always rejected: when [website_url]
    contains no colon (as [example.com] or [www.example.com/docs]),
    [validateForm] stores a non-empty message for the field and rejects,
    and [handleSubmit] makes no request, on every platform. *)
Theorem website_without_colon_rejected (st : CrawlForm.FormState) (r : CrawlForm.settled) :
  Session.contains ":" (CrawlForm.website_url (CrawlForm.formData st)) = false →
  (CrawlForm.validateForm st).2 = false
  ∧ (∃ m, CrawlForm.validationErrors (CrawlForm.validateForm st).1 !! "website_url"
          = Some m ∧ m ≠ "")
  ∧ (CrawlForm.handleSubmit r st).2 = [].
Proof.
  intros Hc. apply newURL_no_colon in Hc.
  assert ((CrawlForm.validateForm st).2 = false) as Hv.
  { destruct ((CrawlForm.validateForm st).2) eqn:E; [|done].
    apply validateForm_accepts in E as [[u Hu] _]. congruence. }
  split; [done|]. split.
  - unfold CrawlForm.validateForm. simpl.
    rewrite validationErrorsOf_website_url, Hc.
    destruct (negb _); eexists; split; done.
  - unfold CrawlForm.handleSubmit.
    destruct (CrawlForm.validateForm st) as [st1 valid]. simpl in Hv. by subst.
Qed.

End SchemeRequired.

(** [www.example.com/docs] with a key entered is rejected. *)
Lemma website_without_colon_rejected_witness :
  (CrawlForm.validateForm (platform := URL.registeredNames)
     (CrawlForm.setFormData
        (λ _, {| CrawlForm.website_url := "www.example.com/docs";
                 CrawlForm.gemini_api_key := "key";
                 CrawlForm.url_filters := Some [] |}) CrawlForm.initialState)).2 = false.
Proof.
  apply (website_without_colon_rejected (platform := URL.registeredNames)
           (CrawlForm.setFormData
              (λ _, {| CrawlForm.website_url := "www.example.com/docs";
                       CrawlForm.gemini_api_key := "key";
                       CrawlForm.url_filters := Some [] |}) CrawlForm.initialState)
           (CrawlForm.Resolved None)).
  reflexivity.
Defined.

(** ** The search box and the refresh button *)

Lemma dispatch_ChangeSearch (st : CrawlList.ListState) (v : string) :
  CrawlList.pendingSearch st = Some (CrawlList.searchTerm st) →
  CrawlList.searchTerm (CrawlList.dispatch st (CrawlList.ChangeSearch v)).1 = v
  ∧ CrawlList.pendingSearch (CrawlList.dispatch st (CrawlList.ChangeSearch v)).1 = Some v
  ∧ (CrawlList.dispatch st (CrawlList.ChangeSearch v)).2 = [].
Proof.
  intros Hp. unfold CrawlList.dispatch.
  destruct (String.eqb v (CrawlList.searchTerm st)) eqn:E; [|done].
  apply String.eqb_eq in E. subst v. simpl. by rewrite Hp.
Qed.

(** X9. Debouncing: when the timeout of the current term is pending and the box
    is changed any number of times before the delay passes, a single
    [onSearch] follows, for the last value typed (trimmed), or for the
    current term when nothing was typed. *)
Theorem debounce_searches_last_value (st : CrawlList.ListState) (vs : list string) :
  CrawlList.pendingSearch st = Some (CrawlList.searchTerm st) →
  (CrawlList.run st ((CrawlList.ChangeSearch <$> vs) ++ [CrawlList.DebounceElapsed])).2
  = [CrawlList.OnSearch
       (JS.or_undefined (JS.trim (default (CrawlList.searchTerm st) (last vs))))].
Proof.
  revert st. induction vs as [|v vs IH]; intros st Hp.
  - simpl. by rewrite Hp.
  - cbn [fmap list_fmap app CrawlList.run].
    destruct (dispatch_ChangeSearch st v Hp) as (Ht & Hp1 & Hout).
    destruct (CrawlList.dispatch st (CrawlList.ChangeSearch v)) as [st1 out1].
    simpl in Ht, Hp1, Hout. subst out1.
    specialize (IH st1). rewrite Ht in IH. specialize (IH Hp1).
    destruct (CrawlList.run st1 _) as [st2 out2]. simpl in *. rewrite IH.
    rewrite last_cons. by destruct (last vs).
Qed.

(** Typing [l], [li], [lit] in the mounted list searches once, for [lit]. *)
Lemma debounce_searches_last_value_witness :
  (CrawlList.run CrawlList.mounted
     ((CrawlList.ChangeSearch <$> ["l"; "li"; "lit "]) ++ [CrawlList.DebounceElapsed])).2
  = [CrawlList.OnSearch (Some "lit")].
Proof.
  apply (debounce_searches_last_value CrawlList.mounted ["l"; "li"; "lit "]).
  reflexivity.
Defined.

Lemma timerCurrent_dispatch (st : CrawlList.ListState) (e : CrawlList.event) :
  Session.timerCurrent st → Session.timerCurrent (CrawlList.dispatch st e).1.
Proof.
  unfold Session.timerCurrent. intros Hst. destruct e as [v| | | ]; unfold CrawlList.dispatch.
  - destruct (String.eqb v (CrawlList.searchTerm st)); [done|]. by right.
  - destruct (CrawlList.pendingSearch st) eqn:E; simpl; [by left | by left].
  - by destruct (CrawlList.refreshing st).
  - done.
Qed.

Lemma refresh_dispatch (st : CrawlList.ListState) (e : CrawlList.event) :
  (Session.countOnRefresh (CrawlList.dispatch st e).2
   + (if CrawlList.refreshing st then 1 else 0)
   ≤ (if Session.isRefreshShown e then 1 else 0)
     + (if CrawlList.refreshing (CrawlList.dispatch st e).1 then 1 else 0))%nat.
Proof.
  destruct e as [v| | | ]; unfold CrawlList.dispatch.
  - destruct (String.eqb v (CrawlList.searchTerm st)); simpl; lia.
  - destruct (CrawlList.pendingSearch st); simpl; lia.
  - destruct (CrawlList.refreshing st) eqn:E; simpl; [rewrite E|]; lia.
  - unfold Session.countOnRefresh. simpl. destruct (CrawlList.refreshing st); lia.
Qed.

Lemma list_session_run (es : list CrawlList.event) (st : CrawlList.ListState) :
  Session.timerCurrent st →
  Session.timerCurrent (CrawlList.run st es).1
  ∧ (Session.countOnRefresh (CrawlList.run st es).2
     + (if CrawlList.refreshing st then 1 else 0)
     ≤ Session.countRefreshShown es
       + (if CrawlList.refreshing (CrawlList.run st es).1 then 1 else 0))%nat.
Proof.
  revert st. induction es as [|e es IH]; intros st Hst; simpl; [split; [done|lia]|].
  pose proof (timerCurrent_dispatch st e Hst) as H1.
  pose proof (refresh_dispatch st e) as Hn.
  destruct (CrawlList.dispatch st e) as [st1 out1]. simpl in H1, Hn.
  destruct (IH st1 H1) as [H2 Hn2].
  destruct (CrawlList.run st1 es) as [st2 out2]. simpl in *. split; [done|].
  unfold Session.countOnRefresh, Session.countRefreshShown in *.
  rewrite List.filter_app, length_app. simpl.
  destruct (Session.isRefreshShown e); simpl; lia.
Qed.

(** X10. No stale search.  In every session of the mounted list the debounce
    timeout, when set, holds the term that is in the box, so when the delay
    passes [onSearch] is called with the box's current term trimmed, or not
    at all. *)
Theorem search_is_for_current_term (es : list CrawlList.event) :
  (CrawlList.dispatch (CrawlList.run CrawlList.mounted es).1 CrawlList.DebounceElapsed).2
    = []
  ∨ (CrawlList.dispatch (CrawlList.run CrawlList.mounted es).1 CrawlList.DebounceElapsed).2
    = [CrawlList.OnSearch
         (JS.or_undefined
            (JS.trim (CrawlList.searchTerm (CrawlList.run CrawlList.mounted es).1)))].
Proof.
  destruct (list_session_run es CrawlList.mounted) as [[Hn | Hs] _]; [by right|..].
  - left. simpl. by rewrite Hn.
  - right. simpl. by rewrite Hs.
Qed.

(** X11. One refresh at a time.  In every session of the mounted list,
    [onRefresh] is called at most once more than the refresh indicator was
    taken down: the button does nothing while [refreshing] is set. *)
Theorem one_refresh_at_a_time (es : list CrawlList.event) :
  (Session.countOnRefresh (CrawlList.run CrawlList.mounted es).2
   ≤ Session.countRefreshShown es + 1)%nat.
Proof.
  destruct (list_session_run es CrawlList.mounted) as [_ Hn]; [by right|].
  simpl in Hn. destruct (CrawlList.refreshing (CrawlList.run CrawlList.mounted es).1); lia.
Qed.

(** ** The estimate and the bar *)

Lemma string_length_app (a b : string) :
  String.length (a +:+ b) = (String.length a + String.length b)%nat.
Proof. induction a as [|c a IH]; simpl; [done|]. by rewrite IH. Qed.

Lemma elapsedSeconds_mono (created t1 t2 : Z) :
  (t1 ≤ t2)%Z →
  (CrawlList.elapsedSeconds created t1 ≤ CrawlList.elapsedSeconds created t2)%Z.
Proof. intros Ht. unfold CrawlList.elapsedSeconds. apply Z.div_le_mono; lia. Qed.

Lemma totalSeconds_Qpos (pages : Z) : (0 < inject_Z (CrawlList.totalSeconds pages))%Q.
Proof.
  rewrite <- (Zlt_Qlt 0). pose proof (totalSeconds_pos pages). lia.
Qed.

(** The quotient [(elapsed / total) * 100]. *)
Lemma ratio_mono (e1 e2 T : Z) :
  (0 < T)%Z → (e1 ≤ e2)%Z →
  (inject_Z e1 / inject_Z T * 100 <= inject_Z e2 / inject_Z T * 100)%Q.
Proof.
  intros HT He. apply Qmult_le_compat_r; [|done].
  unfold Qdiv. apply Qmult_le_compat_r.
  - by rewrite <- Zle_Qle.
  - apply Qinv_le_0_compat. rewrite <- (Zle_Qle 0). lia.
Qed.

(** X12. The bar never moves back as time passes: for a fixed page count and
    creation time, [getProgressPercentage] is non-decreasing in the current
    time. *)
Theorem getProgressPercentage_mono_time (pages created t1 t2 : Z) :
  (t1 ≤ t2)%Z →
  (CrawlList.getProgressPercentage pages created t1
   <= CrawlList.getProgressPercentage pages created t2)%Q.
Proof.
  intros Ht. unfold CrawlList.getProgressPercentage.
  destruct (pages =? 0)%Z; [done|].
  apply Q.min_le_compat_l, Q.max_le_compat_l, ratio_mono.
  - pose proof (totalSeconds_pos pages). lia.
  - by apply elapsedSeconds_mono.
Qed.

(** Half a minute into a five-page crawl, the bar is not behind where it
    was after ten seconds. *)
Lemma getProgressPercentage_mono_time_witness :
  (CrawlList.getProgressPercentage 5 0 10000
   <= CrawlList.getProgressPercentage 5 0 30000)%Q.
Proof. apply (getProgressPercentage_mono_time 5 0 10000 30000). lia. Defined.

Lemma ratio_full (e T : Z) :
  (0 < T)%Z → ((100 <= inject_Z e / inject_Z T * 100)%Q ↔ (T ≤ e)%Z).
Proof.
  intros HT.
  assert (0 < inject_Z T)%Q as HTq by (rewrite <- (Zlt_Qlt 0); lia).
  assert (¬ inject_Z T == 0)%Q as Hne by (intros Hz; rewrite Hz in HTq; by apply Qlt_irrefl in HTq).
  split.
  - intros H100.
    assert (1 * 100 <= inject_Z e / inject_Z T * 100)%Q as H1 by exact H100.
    apply Qmult_le_r in H1; [|done].
    apply (Qmult_le_compat_r _ _ (inject_Z T)) in H1; [|by apply Qlt_le_weak].
    rewrite Qmult_1_l, (Qmult_comm (inject_Z e / inject_Z T)), Qmult_div_r in H1 by done.
    by rewrite Zle_Qle.
  - intros HTe.
    assert (1 * 100 <= inject_Z e / inject_Z T * 100)%Q as H1; [|exact H1].
    apply Qmult_le_compat_r; [|done].
    apply Qle_shift_div_l; [done|]. rewrite Qmult_1_l. by rewrite <- Zle_Qle.
Qed.

Lemma clamp_full (x : Q) : (Qmin 100 (Qmax 0 x) == 100)%Q ↔ (100 <= x)%Q.
Proof.
  rewrite Q.min_l_iff. split.
  - intros H. destruct (Q.max_le _ _ _ H) as [H0 | Hx]; [|done].
    exfalso. revert H0. by apply Qlt_not_le.
  - intros Hx. apply Qle_trans with x; [done | apply Q.le_max_r].
Qed.

(** X13. The text and the bar agree.  For a page count other than 0 the estimate
    reads [Almost done] exactly when the bar is full, that is when the
    elapsed seconds have reached [totalSeconds]; and the estimate reads
    [N/A] exactly when the page count is 0, where the bar is empty. *)
Theorem almost_done_iff_bar_full (pages created now : Z) :
  (CrawlList.getEstimatedTime pages created now = "N/A" ↔ pages = 0%Z)
  ∧ (pages ≠ 0%Z →
     (CrawlList.getEstimatedTime pages created now = "Almost done"
      ↔ (CrawlList.getProgressPercentage pages created now == 100)%Q)
     ∧ ((CrawlList.getProgressPercentage pages created now == 100)%Q
        ↔ (CrawlList.totalSeconds pages ≤ CrawlList.elapsedSeconds created now)%Z)).
Proof.
  assert (∀ a b : string, (3 < String.length b)%nat → a +:+ b ≠ "N/A") as HNA.
  { intros a b Hb Heq. apply (f_equal String.length) in Heq.
    rewrite string_length_app in Heq. simpl in Heq. lia. }
  assert (∀ a b : string, (11 < String.length a + String.length b)%nat →
                          a +:+ b ≠ "Almost done") as HAD.
  { intros a b Hb Heq. apply (f_equal String.length) in Heq.
    rewrite string_length_app in Heq. simpl in Heq. lia. }
  assert (∀ a : string, a +:+ "s remaining" ≠ "Almost done") as HADs.
  { intros [|c a]; [done|]. apply HAD. simpl. lia. }
  assert (∀ a : string, a +:+ "m remaining" ≠ "Almost done") as HADm.
  { intros [|c a]; [done|]. apply HAD. simpl. lia. }
  unfold CrawlList.getEstimatedTime, CrawlList.getProgressPercentage.
  destruct (pages =? 0)%Z eqn:Hp.
  { apply Z.eqb_eq in Hp. split; [done|]. intros Hne. done. }
  apply Z.eqb_neq in Hp.
  pose proof (totalSeconds_pos pages) as HT.
  set (T := CrawlList.totalSeconds pages) in *.
  set (e := CrawlList.elapsedSeconds created now) in *.
  assert ((Qmin 100 (Qmax 0 (inject_Z e / inject_Z T * 100)) == 100)%Q ↔ (T ≤ e)%Z) as Hfull.
  { rewrite clamp_full. apply ratio_full. lia. }
  split.
  - split; [|done]. intros Heq. exfalso. revert Heq.
    destruct (Z.max 0 (T - e) =? 0)%Z; [done|].
    destruct (_ =? 0)%Z; [apply HNA; simpl; lia|].
    destruct (_ =? 0)%Z; [apply HNA; simpl; lia|].
    apply HNA. rewrite !string_length_app. simpl. lia.
  - intros _. split; [|exact Hfull]. rewrite Hfull.
    destruct (Z.max 0 (T - e) =? 0)%Z eqn:Hr.
    + apply Z.eqb_eq in Hr. split; [lia | done].
    + apply Z.eqb_neq in Hr. split; [|lia]. intros Heq. exfalso. revert Heq.
      destruct (_ =? 0)%Z; [apply HADs|].
      destruct (_ =? 0)%Z; [apply HADm|].
      apply HAD. rewrite !string_length_app. simpl. lia.
Qed.

(** Seventy seconds into a five-page crawl the text reads [Almost done] and
    the bar is full. *)
Lemma almost_done_iff_bar_full_witness :
  (CrawlList.getEstimatedTime 5 0 70000 = "Almost done"
   ↔ (CrawlList.getProgressPercentage 5 0 70000 == 100)%Q).
Proof. apply (almost_done_iff_bar_full 5 0 70000). lia. Defined.

Lemma totalSeconds_mono (p q : Z) :
  (p ≤ q)%Z → (CrawlList.totalSeconds p ≤ CrawlList.totalSeconds q)%Z.
Proof.
  intros Hpq. destruct (Z_lt_le_dec p 10) as [Hp|Hp].
  - rewrite (totalSeconds_small p Hp). apply totalSeconds_pos.
  - rewrite !totalSeconds_large by lia.
    assert (p / 10 ≤ q / 10)%Z by (apply Z.div_le_mono; lia). lia.
Qed.

Lemma ratio_antitone (e Tp Tq : Z) :
  (0 < Tp)%Z → (Tp ≤ Tq)%Z → (0 ≤ e)%Z →
  (inject_Z e / inject_Z Tq * 100 <= inject_Z e / inject_Z Tp * 100)%Q.
Proof.
  intros HTp HT He. apply Qmult_le_compat_r; [|done].
  assert (0 < inject_Z Tp)%Q as Hp by (rewrite <- (Zlt_Qlt 0); lia).
  assert (0 < inject_Z Tq)%Q as Hq by (rewrite <- (Zlt_Qlt 0); lia).
  assert (¬ inject_Z Tp == 0)%Q as Hne
    by (intros Hz; rewrite Hz in Hp; by apply Qlt_irrefl in Hp).
  apply Qle_shift_div_r; [done|].
  apply Qle_trans with (inject_Z e / inject_Z Tp * inject_Z Tp)%Q.
  - rewrite Qmult_comm, Qmult_div_r by done. apply Qle_refl.
  - rewrite !(Qmult_comm (inject_Z e / inject_Z Tp)).
    apply Qmult_le_compat_r; [by rewrite <- Zle_Qle|].
    apply Qle_shift_div_l; [done|]. rewrite Qmult_0_l. rewrite <- (Zle_Qle 0). lia.
Qed.

Lemma ratio_nonpos (e T : Z) :
  (0 < T)%Z → (e ≤ 0)%Z → (inject_Z e / inject_Z T * 100 <= 0)%Q.
Proof.
  intros HT He.
  assert (0 < inject_Z T)%Q as Hq by (rewrite <- (Zlt_Qlt 0); lia).
  assert (inject_Z e / inject_Z T <= 0)%Q as H0.
  { apply Qle_shift_div_r; [done|]. rewrite Qmult_0_l. rewrite <- (Zle_Qle _ 0). lia. }
  apply (Qmult_le_compat_r _ _ 100) in H0; [|done]. by rewrite Qmult_0_l in H0.
Qed.

(** X14. More pages, longer estimate: [totalSeconds] is non-decreasing in the
    page count, so at a fixed time the bar of a crawl with more pages
    counted is never ahead of the bar with fewer (both counts other than
    0): the bar can step back when the page count grows. *)
Theorem more_pages_longer_estimate (p q created now : Z) :
  (p ≤ q)%Z → p ≠ 0%Z → q ≠ 0%Z →
  (CrawlList.totalSeconds p ≤ CrawlList.totalSeconds q)%Z
  ∧ (CrawlList.getProgressPercentage q created now
     <= CrawlList.getProgressPercentage p created now)%Q.
Proof.
  intros Hpq Hp Hq. split; [by apply totalSeconds_mono|].
  unfold CrawlList.getProgressPercentage.
  apply Z.eqb_neq in Hp, Hq. rewrite Hp, Hq.
  pose proof (totalSeconds_pos p) as HTp. pose proof (totalSeconds_mono p q Hpq) as HT.
  apply Q.min_le_compat_l. apply Q.max_lub; [apply Q.le_max_l|].
  destruct (Z_le_gt_dec 0 (CrawlList.elapsedSeconds created now)) as [He|He].
  - apply Qle_trans with
      (inject_Z (CrawlList.elapsedSeconds created now)
       / inject_Z (CrawlList.totalSeconds p) * 100)%Q; [|apply Q.le_max_r].
    apply ratio_antitone; lia.
  - apply Qle_trans with 0%Q; [|apply Q.le_max_l].
    apply ratio_nonpos; lia.
Qed.

(** Thirty seconds in, the bar at 25 pages is behind the bar at 19. *)
Lemma more_pages_longer_estimate_witness :
  (CrawlList.getProgressPercentage 25 0 30000
   <= CrawlList.getProgressPercentage 19 0 30000)%Q.
Proof. apply (more_pages_longer_estimate 19 25 0 30000); lia. Defined.

(** ** The card of a crawl *)

Lemma isInProgress_isCompleted (crawl : CrawlList.Crawl) :
  CrawlList.isInProgress crawl && CrawlList.isCompleted crawl = false.
Proof.
  unfold CrawlList.isInProgress, CrawlList.isCompleted.
  destruct (String.eqb_spec (JS.toLowerCase (CrawlList.status crawl)) "in_progress")
    as [-> | _]; done.
Qed.

(** X15. The blocks of a card follow its badge.  A card that shows the Progress
    block has the badge [In Progress] with the spinner icon, a card on which
    a download button answers a click has the badge [Completed], and no
    card has both; the status is read without regard to letter case. *)
Theorem card_blocks_follow_badge (crawl : CrawlList.Crawl) (now : Z) :
  (CrawlCard.progressBlock crawl now ≠ None →
   CrawlList.label (CrawlList.getStatusConfig (CrawlList.status crawl)) = "In Progress"
   ∧ CrawlList.statusIcon (CrawlList.getStatusConfig (CrawlList.status crawl))
     = CrawlList.Loader2)
  ∧ (CrawlCard.clickLlms crawl ++ CrawlCard.clickLlmsFull crawl ≠ [] →
     CrawlList.label (CrawlList.getStatusConfig (CrawlList.status crawl)) = "Completed"
     ∧ CrawlList.statusIcon (CrawlList.getStatusConfig (CrawlList.status crawl))
       = CrawlList.CheckCircle2)
  ∧ (CrawlCard.progressBlock crawl now ≠ None →
     CrawlCard.clickLlms crawl ++ CrawlCard.clickLlmsFull crawl = []).
Proof.
  unfold CrawlCard.progressBlock, CrawlCard.clickLlms, CrawlCard.clickLlmsFull,
    CrawlList.getStatusConfig.
  pose proof (isInProgress_isCompleted crawl) as Hex.
  unfold CrawlList.isInProgress, CrawlList.isCompleted in *.
  destruct (String.eqb (JS.toLowerCase (CrawlList.status crawl)) "completed") eqn:Hc;
    destruct (String.eqb (JS.toLowerCase (CrawlList.status crawl)) "in_progress") eqn:Hi;
    try discriminate; simpl; repeat split; done.
Qed.

(** A crawl reported as [IN_PROGRESS] shows the progress block under the
    [In Progress] badge. *)
Lemma card_blocks_follow_badge_witness :
  CrawlList.label (CrawlList.getStatusConfig "IN_PROGRESS") = "In Progress"
  ∧ CrawlList.statusIcon (CrawlList.getStatusConfig "IN_PROGRESS") = CrawlList.Loader2.
Proof.
  apply (card_blocks_follow_badge
           {| CrawlList.id := 1; CrawlList.status := "IN_PROGRESS";
              CrawlList.website_url := "https://example.com"; CrawlList.pages := 3;
              CrawlList.created_at := 0; CrawlList.url_filters := None;
              CrawlList.llms := None; CrawlList.llms_full := None |} 1000).
  discriminate.
Defined.

(** X16. The filter badges account for every filter: up to three filters are all
    shown, in order; with more than three the card shows the first three
    and one more badge that counts the rest, so never more than four. *)
Theorem filterBadges_account_for_all (crawl : CrawlList.Crawl) (fs : list string) :
  CrawlList.url_filters crawl = Some fs →
  ((length fs ≤ 3)%nat → CrawlCard.filterBadges crawl = fs)
  ∧ ((3 < length fs)%nat →
     CrawlCard.filterBadges crawl
     = take 3 fs
       ++ ["+" +:+ JS.numberToString (Z.of_nat (length fs - 3)) +:+ " more"]
     ∧ length (CrawlCard.filterBadges crawl) = 4%nat)
  ∧ (length (CrawlCard.filterBadges crawl) ≤ 4)%nat.
Proof.
  intros Hfs. unfold CrawlCard.filterBadges. rewrite Hfs.
  destruct (Nat.ltb_spec 0 (length fs)) as [Hpos | Hzero].
  - destruct (Nat.ltb_spec 3 (length fs)) as [Hmore | Hfew].
    + assert (length (take 3 fs) = 3%nat) as Ht by (rewrite length_take; lia).
      split; [lia|]. split.
      * intros _. split; [|rewrite length_app, Ht; simpl; lia].
        by replace (Z.of_nat (length fs) - 3)%Z with (Z.of_nat (length fs - 3)) by lia.
      * rewrite length_app, Ht. simpl. lia.
    + rewrite app_nil_r. split; [intros _; by apply take_ge|].
      split; [lia|]. rewrite length_take. lia.
  - assert (fs = []) as -> by (destruct fs; [done | simpl in Hzero; lia]).
    split; [done|]. split; [simpl; lia | simpl; lia].
Qed.

(** Five filters: three badges and [+2 more]. *)
Lemma filterBadges_account_for_all_witness :
  CrawlCard.filterBadges
    {| CrawlList.id := 1; CrawlList.status := "completed";
       CrawlList.website_url := "https://example.com"; CrawlList.pages := 3;
       CrawlList.created_at := 0;
       CrawlList.url_filters := Some ["/blog"; "/admin"; ".pdf"; "/tag"; "/feed"];
       CrawlList.llms := None; CrawlList.llms_full := None |}
  = ["/blog"; "/admin"; ".pdf"; "+2 more"].
Proof.
  apply (filterBadges_account_for_all
           {| CrawlList.id := 1; CrawlList.status := "completed";
              CrawlList.website_url := "https://example.com"; CrawlList.pages := 3;
              CrawlList.created_at := 0;
              CrawlList.url_filters := Some ["/blog"; "/admin"; ".pdf"; "/tag"; "/feed"];
              CrawlList.llms := None; CrawlList.llms_full := None |}
           ["/blog"; "/admin"; ".pdf"; "/tag"; "/feed"] eq_refl).
  simpl. lia.
Defined.

(** X17. A download opens the crawl's own document and nothing else: whatever a
    click on either download button opens is a non-empty URL stored in
    [llms] or [llms_full] of that crawl, in a new tab, and the crawl's
    status reads completed. *)
Theorem download_opens_own_document (crawl : CrawlList.Crawl) (url target : string) :
  CrawlCard.WindowOpen url target ∈ CrawlCard.clickLlms crawl ++ CrawlCard.clickLlmsFull crawl →
  CrawlList.isCompleted crawl = true
  ∧ url ≠ ""
  ∧ target = "_blank"
  ∧ (CrawlList.llms crawl = Some url ∨ CrawlList.llms_full crawl = Some url).
Proof.
  unfold CrawlCard.clickLlms, CrawlCard.clickLlmsFull, CrawlCard.handleDownload.
  destruct (CrawlList.isCompleted crawl); simpl; [|by intros ?%elem_of_nil].
  intros Hin. apply elem_of_app in Hin as [Hin | Hin].
  - destruct (CrawlList.llms crawl) as [u|]; simpl in Hin; [|by apply elem_of_nil in Hin].
    destruct (JS.truthy u) eqn:Hu; [|by apply elem_of_nil in Hin].
    apply list_elem_of_singleton in Hin. injection Hin as -> ->.
    apply truthy_true in Hu. auto.
  - destruct (CrawlList.llms_full crawl) as [u|]; simpl in Hin;
      [|by apply elem_of_nil in Hin].
    destruct (JS.truthy u) eqn:Hu; [|by apply elem_of_nil in Hin].
    apply list_elem_of_singleton in Hin. injection Hin as -> ->.
    apply truthy_true in Hu. auto.
Qed.

(** A completed crawl with only [llms] set opens that document. *)
Lemma download_opens_own_document_witness :
  CrawlList.llms
    {| CrawlList.id := 1; CrawlList.status := "Completed";
       CrawlList.website_url := "https://example.com"; CrawlList.pages := 3;
       CrawlList.created_at := 0; CrawlList.url_filters := None;
       CrawlList.llms := Some "/files/1/llms.txt"; CrawlList.llms_full := None |}
  = Some "/files/1/llms.txt"
  ∨ CrawlList.llms_full
      {| CrawlList.id := 1; CrawlList.status := "Completed";
         CrawlList.website_url := "https://example.com"; CrawlList.pages := 3;
         CrawlList.created_at := 0; CrawlList.url_filters := None;
         CrawlList.llms := Some "/files/1/llms.txt"; CrawlList.llms_full := None |}
    = Some "/files/1/llms.txt".
Proof.
  apply (download_opens_own_document
           {| CrawlList.id := 1; CrawlList.status := "Completed";
              CrawlList.website_url := "https://example.com"; CrawlList.pages := 3;
              CrawlList.created_at := 0; CrawlList.url_filters := None;
              CrawlList.llms := Some "/files/1/llms.txt"; CrawlList.llms_full := None |}
           "/files/1/llms.txt" "_blank").
  vm_compute. apply list_elem_of_here.
Defined.

(** ** The navigation bar *)

(** X18. One link is highlighted at most: for every path the items rendered as
    active are none, or the single item whose [href] is that path. *)
Theorem navbar_highlights_one (pathname : string) :
  Navbar.activeItems pathname = []
  ∨ ∃ item, Navbar.activeItems pathname = [item]
            ∧ Navbar.href item = pathname ∧ item ∈ Navbar.navigation.
Proof.
  unfold Navbar.activeItems, Navbar.navigation, Navbar.isActive.
  destruct (String.eqb_spec pathname "/dashboard") as [-> | Hd].
  - right. eexists. split; [reflexivity|]. split; [done|]. apply list_elem_of_here.
  - destruct (String.eqb_spec pathname "/about") as [-> | Ha].
    + right. eexists. split; [reflexivity|]. split; [done|].
      apply list_elem_of_further, list_elem_of_here.
    + left. rewrite filter_cons_False.
      * rewrite filter_cons_False; [done|]. simpl. intros H%String.eqb_eq. done.
      * simpl. intros H%String.eqb_eq. done.
Qed.

(** ** The form while it is busy *)
Section BusyForm.
Context {platform : URL.Platform}.


End BusyForm.

